(* ====================================================================== *)
(*  eden.captions: the Captions AI-ads client, embedded in Rocq           *)
(*                                                                        *)
(*  Sources followed: captions_api.py (CaptionsAPIClient),                *)
(*  video_generator.py (VideoGenerator) and utils.py (sanitize_filename). *)
(*                                                                        *)
(*  Conventions of the embedding                                          *)
(*   - A Python str is a Rocq [string]; each [ascii] stands for the code  *)
(*     point of the same number, so the strings of the model are those    *)
(*     over U+0000..U+00FF.  The character tables of str.isspace,         *)
(*     str.isalnum, str.lower and str.isprintable are written out in     *)
(*     full for that range.                                               *)
(*   - A value decoded from JSON is a [json]; numbers are integers        *)
(*     (floating-point numbers are left out).                             *)
(*   - The clock of time.time() is a rational; the only operations that   *)
(*     take time are HTTP requests and time.sleep.                        *)
(*   - Effects are threaded through a state-and-exception monad [M]       *)
(*     over a [World]; the outside (server, delays, calendar, the files   *)
(*     that cannot be opened) is an [Env].                                *)
(* ====================================================================== *)

From Stdlib Require Import ZArith NArith QArith Bool List String Ascii.
From Stdlib Require Import Lia Lqa DecimalString.
Import ListNotations.

Set Warnings "-register-all".

Local Open Scope string_scope.
Local Open Scope Z_scope.

(* ---------------------------------------------------------------------- *)
(** * Python strings                                                       *)
(* ---------------------------------------------------------------------- *)

Module Py.

Definition code (c : ascii) : N := N_of_ascii c.

Definition between (lo hi : N) (c : ascii) : bool :=
  (lo <=? code c)%N && (code c <=? hi)%N.

Definition is_code (n : N) (c : ascii) : bool := (code c =? n)%N.

(** str.isspace on one character: TAB..CR, FS..US, SPACE, NEL, NBSP. *)
Definition isspace (c : ascii) : bool :=
  between 9 13 c || between 28 32 c || is_code 133 c || is_code 160 c.

(** The ASCII letters and digits, [A-Za-z0-9]. *)
Definition is_ascii_alnum (c : ascii) : bool :=
  between 48 57 c || between 65 90 c || between 97 122 c.

(** str.isalnum on one character (isalpha, isdecimal, isdigit or
    isnumeric): the ASCII ones, then the feminine and masculine ordinal
    indicators, the superscript digits, the micro sign, the vulgar
    fractions and the accented letters. *)
Definition isalnum (c : ascii) : bool :=
  is_ascii_alnum c
  || is_code 170 c || is_code 178 c || is_code 179 c || is_code 181 c || is_code 185 c || is_code 186 c
  || between 188 190 c
  || between 192 214 c || between 216 246 c || between 248 255 c.

(** str.isascii on one character. *)
Definition isascii (c : ascii) : bool := (code c <? 128)%N.

(** str.isprintable on one character. *)
Definition isprintable (c : ascii) : bool :=
  between 32 126 c || (between 161 255 c && negb (is_code 173 c)).

Definition is_upper (c : ascii) : bool :=
  between 65 90 c || (between 192 222 c && negb (is_code 215 c)).

Definition lower_char (c : ascii) : ascii :=
  if is_upper c then ascii_of_N (code c + 32) else c.

(** str.lower *)
Fixpoint lower (s : string) : string :=
  match s with
  | EmptyString => EmptyString
  | String c s' => String (lower_char c) (lower s')
  end.

Fixpoint lstrip (s : string) : string :=
  match s with
  | EmptyString => EmptyString
  | String c s' => if isspace c then lstrip s' else s
  end.

(** [s.rstrip(chars)], the characters to drop given by [drop] *)
Fixpoint rstrip_by (drop : ascii -> bool) (s : string) : string :=
  match s with
  | EmptyString => EmptyString
  | String c s' =>
      match rstrip_by drop s' with
      | EmptyString => if drop c then EmptyString else String c EmptyString
      | r => String c r
      end
  end.

Definition rstrip (s : string) : string := rstrip_by isspace s.

(** str.strip with no argument *)
Definition strip (s : string) : string := rstrip (lstrip s).

(** len *)
Definition len (s : string) : Z := Z.of_nat (String.length s).

(** [c in chars] for a one-character [c] *)
Fixpoint char_in (c : ascii) (chars : string) : bool :=
  match chars with
  | EmptyString => false
  | String d chars' => Ascii.eqb c d || char_in c chars'
  end.

(** ["".join(c for c in s if keep c)] *)
Fixpoint filter (keep : ascii -> bool) (s : string) : string :=
  match s with
  | EmptyString => EmptyString
  | String c s' => if keep c then String c (filter keep s') else filter keep s'
  end.

(** [all(p c for c in s)] *)
Fixpoint all (p : ascii -> bool) (s : string) : bool :=
  match s with
  | EmptyString => true
  | String c s' => p c && all p s'
  end.

(** [sep.join(parts)] *)
Fixpoint join (sep : string) (parts : list string) : string :=
  match parts with
  | [] => ""
  | [p] => p
  | p :: rest => p ++ sep ++ join sep rest
  end.

(** [x in xs] for a list of strings *)
Definition str_in (x : string) (xs : list string) : bool :=
  existsb (String.eqb x) xs.

(** str of an int *)
Definition str_of_Z (z : Z) : string := NilZero.string_of_int (Z.to_int z).

Definition str_of_N (n : N) : string := NilZero.string_of_uint (N.to_uint n).

(** [n] printed on at least two digits, as strftime does for %m %d %H %M %S *)
Definition pad2 (n : N) : string :=
  if (n <? 10)%N then "0" ++ str_of_N n else str_of_N n.

Definition hex_digit (n : N) : ascii :=
  if (n <? 10)%N then ascii_of_N (48 + n) else ascii_of_N (87 + n).

(** The [\xNN] escape of repr. *)
Definition hex_escape (c : ascii) : string :=
  String "\" (String "x"
    (String (hex_digit (code c / 16)) (String (hex_digit (code c mod 16)) ""))).

Definition squote : ascii := "'"%char.
Definition dquote : ascii := ascii_of_N 34.
Definition backslash : ascii := "\"%char.

(** One character of repr of a str delimited by [q]. *)
Definition repr_char (q c : ascii) : string :=
  if Ascii.eqb c q || Ascii.eqb c backslash then String backslash (String c "")
  else if is_code 9 c then "\t"
  else if is_code 10 c then "\n"
  else if is_code 13 c then "\r"
  else if isprintable c then String c ""
  else hex_escape c.

Fixpoint repr_chars (q : ascii) (s : string) : string :=
  match s with
  | EmptyString => EmptyString
  | String c s' => repr_char q c ++ repr_chars q s'
  end.

(** repr of a str: single quotes, unless the text has a single quote and
    no double quote. *)
Definition repr_str (s : string) : string :=
  let q := if char_in squote s && negb (char_in dquote s) then dquote else squote in
  String q (repr_chars q s ++ String q "").

End Py.

(* ---------------------------------------------------------------------- *)
(** * Values decoded from JSON                                             *)
(* ---------------------------------------------------------------------- *)

(** What [response.json()] yields: None, bool, int, str, list, dict.  A
    dict is the list of its items. *)
Inductive json : Type :=
| JNull
| JBool (b : bool)
| JInt (z : Z)
| JStr (s : string)
| JArr (items : list json)
| JObj (fields : list (string * json)).

(** Truth value of a Python object, as tested by [if x] and [not x]. *)
Definition truthy (v : json) : bool :=
  match v with
  | JNull => false
  | JBool b => b
  | JInt z => negb (z =? 0)
  | JStr s => negb (String.eqb s "")
  | JArr items => match items with [] => false | _ => true end
  | JObj fields => match fields with [] => false | _ => true end
  end.

(** [v == s] for a str literal [s] *)
Definition eq_str (v : json) (s : string) : bool :=
  match v with
  | JStr s' => String.eqb s' s
  | _ => false
  end.

(** [v in [s1, s2, ...]] for str literals *)
Definition in_strs (v : json) (l : list string) : bool :=
  existsb (eq_str v) l.

(** [v is not None] *)
Definition is_not_None (v : json) : bool :=
  match v with JNull => false | _ => true end.

(** repr *)
Fixpoint py_repr (v : json) : string :=
  match v with
  | JNull => "None"
  | JBool true => "True"
  | JBool false => "False"
  | JInt z => Py.str_of_Z z
  | JStr s => Py.repr_str s
  | JArr items => "[" ++ Py.join ", " (map py_repr items) ++ "]"
  | JObj fields =>
      "{" ++ Py.join ", "
               (map (fun kv => Py.repr_str (fst kv) ++ ": " ++ py_repr (snd kv)) fields)
          ++ "}"
  end.

(** str, which is also what a replacement field of an f-string prints *)
Definition py_str (v : json) : string :=
  match v with
  | JStr s => s
  | _ => py_repr v
  end.

Fixpoint lookup (k : string) (fields : list (string * json)) : option json :=
  match fields with
  | [] => None
  | (k', v) :: rest => if String.eqb k' k then Some v else lookup k rest
  end.

(* ---------------------------------------------------------------------- *)
(** * The world outside the client                                         *)
(* ---------------------------------------------------------------------- *)

Record Request : Type := mkRequest {
  req_method : string;
  req_url : string;
  req_json : option json;
  req_stream : bool
}.

(** The exceptions of the JSON decoder that are no JSONDecodeError:
    RecursionError on nesting that is too deep, and the plain ValueError
    of an integer with more digits than int() converts. *)
Inductive DecoderCrash : Type :=
| TooDeep (msg : string)
| TooManyDigits (msg : string).

(** What [.json()] does on a response: it returns the decoded value,
    raises requests' JSONDecodeError with a detail, or lets an exception
    of the decoder through. *)
Inductive JsonResult : Type :=
| Decoded (v : json)
| NotJson (detail : string)
| Crashed (c : DecoderCrash).

(** A [requests.Response]: [json_body] is what [.json()] does; [content]
    is the body streamed by [iter_content]. *)
Record Response : Type := mkResponse {
  status_code : Z;
  reason : string;
  url : string;
  text : string;
  json_body : JsonResult;
  content : string
}.

Inductive HttpOutcome : Type :=
| ConnectionFailed (detail : string)
| Responded (r : Response).

(** datetime.now() *)
Record DateTime : Type := mkDateTime {
  year : N; month : N; day : N; hour : N; minute : N; second : N
}.

(** The outside: what the server answers to the n-th request of the run,
    how long that request takes, by how much the n-th sleep overshoots,
    the calendar reading at each clock value, and the file system:
    [open_error path] is the message of the OSError that open(path, 'wb')
    raises, [None] when the file opens. *)
Record Env : Type := mkEnv {
  http : nat -> Request -> HttpOutcome;
  latency : nat -> Q;
  oversleep : nat -> Q;
  calendar : Q -> DateTime;
  open_error : string -> option string
}.

Inductive Event : Type :=
| EvRequest (issued : Q) (r : Request)
| EvSleep (seconds : Z)
| EvMakedirs (path : string)
| EvWriteFile (path : string) (data : string).

Record World : Type := mkWorld {
  now : Q;
  requests : nat;
  sleeps : nat;
  trace : list Event;
  log : list string
}.

Definition is_request (e : Event) : bool :=
  match e with EvRequest _ _ => true | _ => false end.

Definition is_sleep (e : Event) : bool :=
  match e with EvSleep _ => true | _ => false end.

Definition is_write (e : Event) : bool :=
  match e with EvWriteFile _ _ => true | _ => false end.

(** The requests sent to [endpoint_url], in order. *)
Definition requests_to (endpoint_url : string) (t : list Event) : list Event :=
  List.filter (fun e => match e with
                        | EvRequest _ r => String.eqb (req_url r) endpoint_url
                        | _ => false
                        end) t.

(* ---------------------------------------------------------------------- *)
(** * Exceptions and the monad                                             *)
(* ---------------------------------------------------------------------- *)

Inductive exn : Type :=
| CaptionsAPIError (msg : string)
| HTTPError (msg : string) (response : Response)
| JSONDecodeError (msg : string)
| RequestException (msg : string)
| ValueError (msg : string)
| AttributeError (msg : string)
| OSError (msg : string)
| RecursionError (msg : string)
| OverflowError (msg : string).

(** str(e) *)
Definition str_exn (e : exn) : string :=
  match e with
  | CaptionsAPIError m | HTTPError m _ | JSONDecodeError m
  | RequestException m | ValueError m | AttributeError m | OSError m
  | RecursionError m | OverflowError m => m
  end.

(** isinstance(e, requests.exceptions.RequestException): HTTPError and the
    JSONDecodeError of [Response.json] derive from it. *)
Definition is_RequestException (e : exn) : bool :=
  match e with
  | HTTPError _ _ | JSONDecodeError _ | RequestException _ => true
  | _ => false
  end.

(** The exception a crash of the decoder raises. *)
Definition crash_exn (c : DecoderCrash) : exn :=
  match c with
  | TooDeep m => RecursionError m
  | TooManyDigits m => ValueError m
  end.

Inductive Result (A : Type) : Type :=
| Ok (a : A)
| Raised (e : exn)
| OutOfFuel.
Arguments Ok {A} a.
Arguments Raised {A} e.
Arguments OutOfFuel {A}.

Definition M (A : Type) : Type := World -> Result A * World.

Definition ret {A} (a : A) : M A := fun w => (Ok a, w).

Definition raise {A} (e : exn) : M A := fun w => (Raised e, w).

Definition out_of_fuel {A} : M A := fun w => (OutOfFuel, w).

Definition bind {A B} (m : M A) (k : A -> M B) : M B :=
  fun w =>
    match m w with
    | (Ok a, w') => k a w'
    | (Raised e, w') => (Raised e, w')
    | (OutOfFuel, w') => (OutOfFuel, w')
    end.

Declare Scope py_scope.
Delimit Scope py_scope with py.
Notation "x <- m ;; k" := (bind m (fun x => k))
  (at level 61, m at next level, right associativity) : py_scope.
Notation "m ;;; k" := (bind m (fun _ => k))
  (at level 61, right associativity) : py_scope.

(** try: body / except ...: the handler picks the exceptions it catches
    ([None]: not caught, the exception goes on). *)
Definition try_except {A} (body : M A) (handler : exn -> option (M A)) : M A :=
  fun w =>
    match body w with
    | (Raised e, w') =>
        match handler e with
        | Some h => h w'
        | None => (Raised e, w')
        end
    | r => r
    end.

(* ---------------------------------------------------------------------- *)
(** * posixpath                                                            *)
(* ---------------------------------------------------------------------- *)

Module PosixPath.

Definition is_sep (c : ascii) : bool := Ascii.eqb c "/".

Definition startswith_sep (s : string) : bool :=
  match s with String c _ => is_sep c | EmptyString => false end.

Fixpoint endswith_sep (s : string) : bool :=
  match s with
  | EmptyString => false
  | String c EmptyString => is_sep c
  | String _ s' => endswith_sep s'
  end.

(** os.path.join(a, b) *)
Definition join (a b : string) : string :=
  if startswith_sep b then b
  else if String.eqb a "" || endswith_sep a then a ++ b
  else a ++ "/" ++ b.

(** [p[:p.rfind('/') + 1]] *)
Fixpoint head (p : string) : string :=
  match p with
  | EmptyString => EmptyString
  | String c p' =>
      match head p' with
      | EmptyString => if is_sep c then String c EmptyString else EmptyString
      | h => String c h
      end
  end.

(** os.path.basename(p): [p[p.rfind('/') + 1:]] *)
Fixpoint basename (p : string) : string :=
  match p with
  | EmptyString => EmptyString
  | String c p' =>
      if Py.char_in "/" p' then basename p'
      else if is_sep c then p' else String c p'
  end.

(** os.path.dirname(p) *)
Definition dirname (p : string) : string :=
  let h := head p in
  if negb (String.eqb h "") && negb (Py.all is_sep h)
  then Py.rstrip_by is_sep h
  else h.

End PosixPath.

(* ---------------------------------------------------------------------- *)
(** * Primitive effects                                                    *)
(* ---------------------------------------------------------------------- *)

Section Client.

Variable env : Env.

Local Open Scope py_scope.

(** time.time().  The clock of the model is moved by requests and by
    sleeps only: two readings with neither in between are the same
    instant, where a real clock has moved on by some microseconds. *)
Definition time_time : M Q := fun w => (Ok (now w), w).

(** The world after a sleep of [d]: the clock moves on by [d] and the
    overshoot of this sleep. *)
Definition after_sleep (d : Z) (w : World) : World :=
  mkWorld (now w + (inject_Z d + oversleep env (sleeps w)))%Q
          (requests w) (S (sleeps w))
          (trace w ++ [EvSleep d]) (log w).

(** The most seconds that fit the nanosecond clock of time.sleep. *)
Definition sleep_max : Z := 9223372036.

(** What time.sleep(d) raises instead of sleeping: OverflowError for a
    length that does not convert to nanoseconds, ValueError for a
    negative one. *)
Definition sleep_error (d : Z) : option exn :=
  if (d <? - sleep_max) || (sleep_max <? d) then
    Some (OverflowError "timestamp too large to convert to C _PyTime_t")
  else if d <? 0 then
    Some (ValueError "sleep length must be non-negative")
  else None.

(** time.sleep(d) *)
Definition time_sleep (d : Z) : M unit :=
  match sleep_error d with
  | Some e => raise e
  | None => fun w => (Ok tt, after_sleep d w)
  end.

Definition after_log (msg : string) (w : World) : World :=
  mkWorld (now w) (requests w) (sleeps w) (trace w) (log w ++ [msg]).

(** logger.info(msg), logger.error(msg) *)
Definition logger_info (msg : string) : M unit :=
  fun w => (Ok tt, after_log msg w).

Definition logger_error (msg : string) : M unit := logger_info msg.

(** The world after a request: it is issued at the current clock value and
    takes the latency of this request. *)
Definition after_request (req : Request) (w : World) : World :=
  mkWorld (now w + latency env (requests w))%Q
          (S (requests w)) (sleeps w)
          (trace w ++ [EvRequest (now w) req]) (log w).

(** session.request(...): a transport failure is a RequestException. *)
Definition session_request (req : Request) : M Response :=
  fun w =>
    match http env (requests w) req with
    | ConnectionFailed detail =>
        (Raised (RequestException detail), after_request req w)
    | Responded r => (Ok r, after_request req w)
    end.

(** Response.raise_for_status(): HTTPError for 4xx and 5xx only. *)
Definition raise_for_status (r : Response) : M unit :=
  if (400 <=? status_code r) && (status_code r <? 500) then
    raise (HTTPError (Py.str_of_Z (status_code r) ++ " Client Error: "
                        ++ reason r ++ " for url: " ++ url r) r)
  else if (500 <=? status_code r) && (status_code r <? 600) then
    raise (HTTPError (Py.str_of_Z (status_code r) ++ " Server Error: "
                        ++ reason r ++ " for url: " ++ url r) r)
  else ret tt.

(** Response.json() *)
Definition response_json (r : Response) : M json :=
  match json_body r with
  | Decoded v => ret v
  | NotJson detail => raise (JSONDecodeError detail)
  | Crashed c => raise (crash_exn c)
  end.

Definition type_name (v : json) : string :=
  match v with
  | JNull => "NoneType"
  | JBool _ => "bool"
  | JInt _ => "int"
  | JStr _ => "str"
  | JArr _ => "list"
  | JObj _ => "dict"
  end.

(** d.get(k, default); only a dict has the method. *)
Definition dict_get (d : json) (k : string) (default : json) : M json :=
  match d with
  | JObj fields =>
      ret (match lookup k fields with Some v => v | None => default end)
  | _ => raise (AttributeError
                  ("'" ++ type_name d ++ "' object has no attribute 'get'"))
  end.

Definition after_makedirs (path : string) (w : World) : World :=
  mkWorld (now w) (requests w) (sleeps w)
          (trace w ++ [EvMakedirs path]) (log w).

(** os.makedirs(path, exist_ok=True), on a file system that lets the
    directory be made, for a path without a NUL character. *)
Definition os_makedirs (path : string) : M unit :=
  if String.eqb path "" then
    raise (OSError "[Errno 2] No such file or directory: ''")
  else fun w => (Ok tt, after_makedirs path w).

(** A path whose last component is empty, "." or ".." names a directory,
    whatever the file system holds. *)
Definition names_directory (path : string) : bool :=
  let b := PosixPath.basename path in
  String.eqb b "" || String.eqb b "." || String.eqb b "..".

(** The exception of open(path, 'wb'), [None] when the file opens: a
    path with a NUL character is refused before the file system is asked,
    the empty path is no file, a path that names a directory cannot be
    written to, and for the rest the file system decides. *)
Definition open_wb (path : string) : option exn :=
  if Py.char_in Ascii.zero path then
    Some (ValueError "embedded null byte")
  else if String.eqb path "" then
    Some (OSError "[Errno 2] No such file or directory: ''")
  else if names_directory path then
    Some (OSError ("[Errno 21] Is a directory: " ++ Py.repr_str path))
  else option_map OSError (open_error env path).

Definition after_write (path data : string) (w : World) : World :=
  mkWorld (now w) (requests w) (sleeps w)
          (trace w ++ [EvWriteFile path data]) (log w).

(** with open(path, 'wb') as f: for chunk in ...: f.write(chunk)
    (once the file is open the writes are taken to go through). *)
Definition write_file (path data : string) : M unit :=
  match open_wb path with
  | Some e => raise e
  | None => fun w => (Ok tt, after_write path data w)
  end.

(** datetime.now().strftime("%Y%m%d_%H%M%S") *)
Definition strftime (d : DateTime) : string :=
  Py.str_of_N (year d) ++ Py.pad2 (month d) ++ Py.pad2 (day d) ++ "_"
    ++ Py.pad2 (hour d) ++ Py.pad2 (minute d) ++ Py.pad2 (second d).

Definition datetime_now : M DateTime := fun w => (Ok (calendar env (now w)), w).

(* ---------------------------------------------------------------------- *)
(** * captions_api.py: CaptionsAPIClient                                   *)
(* ---------------------------------------------------------------------- *)

Definition BASE_URL : string := "https://api.captions.ai".

(** urljoin(BASE_URL, endpoint), for the absolute paths the client passes *)
Definition urljoin (base endpoint : string) : string := base ++ endpoint.

Definition _make_request (method endpoint : string) (payload : option json)
  : M json :=
  let url := urljoin BASE_URL endpoint in
  try_except
    (response <- session_request (mkRequest method url payload false) ;;
     raise_for_status response ;;;
     response_json response)
    (fun e =>
       match e with
       | HTTPError _ e_response =>
           Some
             (if status_code e_response =? 401 then
                raise (CaptionsAPIError
                         "Invalid API key. Please check your credentials.")
              else if status_code e_response =? 429 then
                raise (CaptionsAPIError
                         "Rate limit exceeded. Please wait before making another request.")
              else if status_code e_response =? 402 then
                raise (CaptionsAPIError
                         "Insufficient credits. Please purchase more credits.")
              else if status_code e_response =? 400 then
                try_except
                  (error_detail <- response_json e_response ;;
                   raise (CaptionsAPIError
                            ("Bad request: " ++ py_str error_detail)))
                  (fun _ =>
                     Some (raise (CaptionsAPIError
                                    ("Bad request: " ++ text e_response))))
              else
                raise (CaptionsAPIError
                         ("API request failed: " ++ str_exn e)))
       | _ =>
           if is_RequestException e then
             Some (raise (CaptionsAPIError
                            ("API request failed: " ++ str_exn e)))
           else None
       end).

Definition placeholder_media_url : string :=
  "https://images.unsplash.com/photo-1611224923853-80b023f02d71?w=800&h=600&fit=crop".

Definition falsy_list {A} (l : option (list A)) : bool :=
  match l with
  | None | Some [] => true
  | Some _ => false
  end.

Definition falsy_str (s : option string) : bool :=
  match s with
  | None => true
  | Some s' => String.eqb s' ""
  end.

(** The dict sent by create_ai_ad. *)
Definition submit_payload (script creator_name : string)
    (media_urls : option (list string)) (resolution : string)
    (webhook_id : option string) : json :=
  let media_urls :=
    if falsy_list media_urls then [placeholder_media_url]
    else match media_urls with Some l => l | None => [] end in
  let payload :=
    [ ("script", JStr script);
      ("creatorName", JStr creator_name);
      ("mediaUrls", JArr (map JStr media_urls));
      ("resolution", JStr resolution) ] in
  let payload :=
    if falsy_str webhook_id then payload
    else (payload ++ [("webhookId",
                       match webhook_id with Some w => JStr w | None => JNull end)])%list in
  JObj (List.filter (fun kv => is_not_None (snd kv)) payload).

Definition create_ai_ad (script creator_name : string)
    (media_urls : option (list string)) (resolution : string)
    (webhook_id : option string) : M json :=
  let endpoint := "/api/ads/submit" in
  let payload := submit_payload script creator_name media_urls resolution webhook_id in
  logger_info ("Creating AI ad with creator: " ++ creator_name) ;;;
  logger_info ("Payload: " ++ py_str payload) ;;;
  response <- _make_request "POST" endpoint (Some payload) ;;
  operation_id <- dict_get response "operationId" JNull ;;
  if negb (truthy operation_id) then
    raise (CaptionsAPIError "No operation ID received from API")
  else
    logger_info ("AI ad job created with operation ID: " ++ py_str operation_id) ;;;
    ret operation_id.

Definition get_job_status (operation_id : json) : M json :=
  let endpoint := "/api/ads/poll" in
  let payload := JObj [("operationId", operation_id)] in
  _make_request "POST" endpoint (Some payload).

Definition default_timeout : Z := 300.
Definition default_poll_interval : Z := 10.

(** [time.time() - start_time > timeout] *)
Definition budget_exceeded (start_time t : Q) (timeout : Z) : bool :=
  negb (Qle_bool (t - start_time) (inject_Z timeout)).

(** The [while True] loop of wait_for_completion; [fuel] bounds the number
    of iterations. *)
Fixpoint wait_loop (fuel : nat) (operation_id : json) (timeout poll_interval : Z)
    (start_time : Q) : M json :=
  match fuel with
  | O => out_of_fuel
  | S fuel' =>
      t <- time_time ;;
      if budget_exceeded start_time t timeout then
        raise (CaptionsAPIError
                 ("Job " ++ py_str operation_id ++ " timed out after "
                    ++ Py.str_of_Z timeout ++ " seconds"))
      else
        status <- get_job_status operation_id ;;
        state <- dict_get status "state" (JStr "unknown") ;;
        logger_info ("Job " ++ py_str operation_id ++ " status: " ++ py_str state) ;;;
        if eq_str state "COMPLETE" then
          video_url <- dict_get status "url" JNull ;;
          if truthy video_url then
            logger_info ("Video generation completed: " ++ py_str video_url) ;;;
            ret video_url
          else
            raise (CaptionsAPIError "Job completed but no video URL found")
        else if eq_str state "FAILED" then
          error <- dict_get status "error" (JStr "Unknown error") ;;
          raise (CaptionsAPIError
                   ("Job " ++ py_str operation_id ++ " failed: " ++ py_str error))
        else if in_strs state ["PENDING"; "PROCESSING"; "QUEUED"] then
          time_sleep poll_interval ;;;
          wait_loop fuel' operation_id timeout poll_interval start_time
        else
          raise (CaptionsAPIError ("Unknown job state: " ++ py_str state))
  end.

Definition wait_for_completion (fuel : nat) (operation_id : json)
    (timeout poll_interval : Z) : M json :=
  start_time <- time_time ;;
  wait_loop fuel operation_id timeout poll_interval start_time.

Definition download_video (video_url : json) (output_path : string) : M string :=
  try_except
    (logger_info ("Downloading video to: " ++ output_path) ;;;
     response <- session_request (mkRequest "GET" (py_str video_url) None true) ;;
     raise_for_status response ;;;
     os_makedirs (PosixPath.dirname output_path) ;;;
     write_file output_path (content response) ;;;
     logger_info ("Video downloaded successfully: " ++ output_path) ;;;
     ret output_path)
    (fun e =>
       if is_RequestException e then
         Some (raise (CaptionsAPIError
                        ("Failed to download video: " ++ str_exn e)))
       else None).

(* ---------------------------------------------------------------------- *)
(** * video_generator.py: VideoGenerator                                   *)
(* ---------------------------------------------------------------------- *)

Definition valid_resolutions : list string := ["fhd"; "hd"; "4k"].

Definition _validate_inputs (script creator_name resolution : string) : M unit :=
  if String.eqb script "" || (Py.len (Py.strip script) <? 10) then
    raise (CaptionsAPIError "Script must be at least 10 characters long")
  else if String.eqb creator_name "" || (Py.len (Py.strip creator_name) <? 1) then
    raise (CaptionsAPIError "Creator name is required")
  else if negb (Py.str_in (Py.lower resolution) valid_resolutions) then
    raise (CaptionsAPIError
             ("Invalid resolution. Must be one of: "
                ++ Py.join ", " valid_resolutions))
  else ret tt.

(** [c.isalnum() or c in "._-"] *)
Definition keep_char (c : ascii) : bool :=
  Py.isalnum c || Py.char_in c "._-".

(** The requests of the client. *)
Definition api_request (endpoint : string) (payload : json) : Request :=
  mkRequest "POST" (urljoin BASE_URL endpoint) (Some payload) false.

Definition poll_request (operation_id : json) : Request :=
  api_request "/api/ads/poll" (JObj [("operationId", operation_id)]).

(** The server's answer is a response that raise_for_status lets through
    and whose body decodes to [body]. *)
Definition answers (o : HttpOutcome) (body : json) : Prop :=
  exists r, o = Responded r
            /\ (status_code r < 400 \/ 600 <= status_code r)
            /\ json_body r = Decoded body.

(** The state wait_for_completion reads off a status dict. *)
Definition state_of (fields : list (string * json)) : json :=
  match lookup "state" fields with
  | Some v => v
  | None => JStr "unknown"
  end.

(** [status.get(k)] on a dict *)
Definition field (k : string) (fields : list (string * json)) : json :=
  match lookup k fields with
  | Some v => v
  | None => JNull
  end.

(** A request event is within the wait budget when it was issued no later
    than [timeout] after [start_time]. *)
Definition within_budget (start_time : Q) (timeout : Z) (e : Event) : Prop :=
  match e with
  | EvRequest issued _ => (issued - start_time <= inject_Z timeout)%Q
  | _ => True
  end.

(** The files written so far. *)
Definition writes (w : World) : list Event := List.filter is_write (trace w).

(** A computation that writes no file. *)
Definition no_write {A : Type} (m : M A) : Prop :=
  forall w, writes (snd (m w)) = writes w.

(** What every terminal turn leaves behind: one more request, no sleep. *)
Definition one_poll_no_sleep (operation_id : json) (w w' : World) : Prop :=
  trace w' = (trace w ++ [EvRequest (now w) (poll_request operation_id)])%list
  /\ requests w' = S (requests w)
  /\ sleeps w' = sleeps w.

(** The class [A-Za-z0-9._-]. *)
Definition safe_char (c : ascii) : bool :=
  Py.is_ascii_alnum c || Py.char_in c "._-".

(** The body of _generate_filename once the timestamp is formatted. *)
Definition filename_of (script creator_name resolution timestamp : string)
  : string :=
  let filename :=
    "ai_ad_" ++ creator_name ++ "_" ++ resolution ++ "_" ++ timestamp ++ ".mp4" in
  Py.filter keep_char filename.

Definition _generate_filename (script creator_name resolution : string)
  : M string :=
  d <- datetime_now ;;
  let timestamp := strftime d in
  ret (filename_of script creator_name resolution timestamp).

Definition generate_ad_video (fuel : nat) (script creator_name : string)
    (media_urls : option (list string)) (resolution : string)
    (webhook_id : option string) (output_dir : string)
    (filename : option string) : M string :=
  _validate_inputs script creator_name resolution ;;;
  os_makedirs output_dir ;;;
  filename <- (if falsy_str filename
               then _generate_filename script creator_name resolution
               else ret (match filename with Some f => f | None => "" end)) ;;
  let output_path := PosixPath.join output_dir filename in
  try_except
    (operation_id <- create_ai_ad script creator_name media_urls resolution webhook_id ;;
     video_url <- wait_for_completion fuel operation_id default_timeout default_poll_interval ;;
     final_path <- download_video video_url output_path ;;
     logger_info ("Video generation completed successfully: " ++ final_path) ;;;
     ret final_path)
    (fun e =>
       match e with
       | CaptionsAPIError _ =>
           Some (logger_error ("Video generation failed: " ++ str_exn e) ;;;
                 raise e)
       | _ => None
       end).

End Client.

(* ---------------------------------------------------------------------- *)
(** * captions_api.py: construction and the remaining calls                *)
(* ---------------------------------------------------------------------- *)

(** [a or b] on two optional strs *)
Definition or_str (a b : option string) : option string :=
  if falsy_str a then b else a.

(** The headers of a session, a requests CaseInsensitiveDict: keys are
    compared through str.lower, an entry that is set again keeps its
    place and takes the new spelling of the key. *)
Module Headers.

Definition same_key (a b : string) : bool :=
  String.eqb (Py.lower a) (Py.lower b).

Fixpoint set (k v : string) (h : list (string * string))
  : list (string * string) :=
  match h with
  | [] => [(k, v)]
  | (k', v') :: h' =>
      if same_key k' k then (k, v) :: h' else (k', v') :: set k v h'
  end.

Fixpoint get (k : string) (h : list (string * string)) : option string :=
  match h with
  | [] => None
  | (k', v') :: h' => if same_key k' k then Some v' else get k h'
  end.

(** headers.update({k1: v1, ...}) *)
Definition update (h items : list (string * string)) : list (string * string) :=
  fold_left (fun acc kv => set (fst kv) (snd kv) acc) items h.

End Headers.

(** What __init__ leaves in the object. *)
Record Client : Type := mkClient {
  api_key : string;
  session_headers : list (string * string)
}.

(** CaptionsAPIClient.__init__: [getenv] is os.getenv, [default_headers]
    the headers a fresh requests.Session starts with. *)
Definition CaptionsAPIClient_init (getenv : string -> option string)
    (default_headers : list (string * string)) (key : option string)
  : exn + Client :=
  let resolved := or_str key (getenv "CAPTIONS_API_KEY") in
  if falsy_str resolved then
    inl (CaptionsAPIError
           "API key is required. Set CAPTIONS_API_KEY environment variable or pass api_key parameter.")
  else
    let k := match resolved with Some k => k | None => "" end in
    inr (mkClient k
           (Headers.update default_headers
              [("x-api-key", k);
               ("Content-Type", "application/json");
               ("User-Agent", "CaptionsAI-Python-Client/1.0")])).

Section RemainingCalls.

Variable env : Env.

(** CaptionsAPIClient.list_creators *)
Definition list_creators : M json :=
  let endpoint := "/api/ads/list-creators" in
  _make_request env "POST" endpoint None.

End RemainingCalls.

(** video_generator.py: the methods of VideoGenerator that only pass on. *)
Module VideoGenerator.

Definition _check_credits (duration : Z) : M unit :=
  logger_info "Skipping credits check - endpoint not available in current API".

Definition get_generation_status (env : Env) (operation_id : json) : M json :=
  get_job_status env operation_id.

Definition list_creators (env : Env) : M json := list_creators env.

End VideoGenerator.

(* ---------------------------------------------------------------------- *)
(** * utils.py                                                             *)
(* ---------------------------------------------------------------------- *)

Module Utils.

(** The characters the pattern of sanitize_filename matches: less-than,
    greater-than, colon, double quote, slash, backslash, bar, question
    mark and star. *)
Definition invalid_char (c : ascii) : bool :=
  Py.char_in c "<>:/\|?*" || Ascii.eqb c Py.dquote.

(** re.sub(cls, repl, s) for a character class [cls] and a one-character
    replacement *)
Fixpoint re_sub_class (cls : ascii -> bool) (repl : ascii) (s : string) : string :=
  match s with
  | EmptyString => EmptyString
  | String c s' =>
      String (if cls c then repl else c) (re_sub_class cls repl s')
  end.

Fixpoint lstrip_by (drop : ascii -> bool) (s : string) : string :=
  match s with
  | EmptyString => EmptyString
  | String c s' => if drop c then lstrip_by drop s' else s
  end.

(** s.strip(chars) *)
Definition strip_by (drop : ascii -> bool) (s : string) : string :=
  Py.rstrip_by drop (lstrip_by drop s).

Definition space_or_dot (c : ascii) : bool := Py.char_in c " .".

Definition sanitize_filename (filename : string) : string :=
  let filename := re_sub_class invalid_char "_" filename in
  let filename := strip_by space_or_dot filename in
  if String.eqb filename "" then "unnamed_file" else filename.

End Utils.

(* ---------------------------------------------------------------------- *)
(** * The runs of the polling loop, as a relation                          *)
(* ---------------------------------------------------------------------- *)

Section Runs.

Variable env : Env.
Variable operation_id : json.
Variables timeout poll_interval : Z.
Variable start_time : Q.

(** The world once a turn has polled, and once it has logged the state. *)
Definition polled (w : World) : World :=
  after_request env (poll_request operation_id) w.

Definition logged (fields : list (string * json)) (w : World) : World :=
  after_log ("Job " ++ py_str operation_id ++ " status: "
               ++ py_str (state_of fields))
            (polled w).

Definition nonterminal (fields : list (string * json)) : bool :=
  negb (eq_str (state_of fields) "COMPLETE")
  && negb (eq_str (state_of fields) "FAILED")
  && in_strs (state_of fields) ["PENDING"; "PROCESSING"; "QUEUED"].

Definition unknown_state (fields : list (string * json)) : bool :=
  negb (eq_str (state_of fields) "COMPLETE")
  && negb (eq_str (state_of fields) "FAILED")
  && negb (in_strs (state_of fields) ["PENDING"; "PROCESSING"; "QUEUED"]).

(** [loop_run fuel w r w']: started in [w] with [fuel] turns left, the
    loop ends with [r] in [w'].  One constructor per way out of a turn. *)
Inductive loop_run : nat -> World -> Result json -> World -> Prop :=
| run_out_of_fuel (w : World) :
    loop_run O w OutOfFuel w
| run_timeout (fuel : nat) (w : World) :
    budget_exceeded start_time (now w) timeout = true ->
    loop_run (S fuel) w
      (Raised (CaptionsAPIError
                 ("Job " ++ py_str operation_id ++ " timed out after "
                    ++ Py.str_of_Z timeout ++ " seconds")))
      w
| run_poll_raised (fuel : nat) (w : World) (e : exn) :
    budget_exceeded start_time (now w) timeout = false ->
    get_job_status env operation_id w = (Raised e, polled w) ->
    loop_run (S fuel) w (Raised e) (polled w)
| run_not_dict (fuel : nat) (w : World) (status : json) :
    budget_exceeded start_time (now w) timeout = false ->
    get_job_status env operation_id w = (Ok status, polled w) ->
    (forall fields, status <> JObj fields) ->
    loop_run (S fuel) w
      (Raised (AttributeError
                 ("'" ++ type_name status ++ "' object has no attribute 'get'")))
      (polled w)
| run_complete (fuel : nat) (w : World) (fields : list (string * json)) :
    budget_exceeded start_time (now w) timeout = false ->
    get_job_status env operation_id w = (Ok (JObj fields), polled w) ->
    eq_str (state_of fields) "COMPLETE" = true ->
    truthy (field "url" fields) = true ->
    loop_run (S fuel) w (Ok (field "url" fields))
      (after_log ("Video generation completed: " ++ py_str (field "url" fields))
                 (logged fields w))
| run_no_url (fuel : nat) (w : World) (fields : list (string * json)) :
    budget_exceeded start_time (now w) timeout = false ->
    get_job_status env operation_id w = (Ok (JObj fields), polled w) ->
    eq_str (state_of fields) "COMPLETE" = true ->
    truthy (field "url" fields) = false ->
    loop_run (S fuel) w
      (Raised (CaptionsAPIError "Job completed but no video URL found"))
      (logged fields w)
| run_failed (fuel : nat) (w : World) (fields : list (string * json)) :
    budget_exceeded start_time (now w) timeout = false ->
    get_job_status env operation_id w = (Ok (JObj fields), polled w) ->
    eq_str (state_of fields) "COMPLETE" = false ->
    eq_str (state_of fields) "FAILED" = true ->
    loop_run (S fuel) w
      (Raised (CaptionsAPIError
                 ("Job " ++ py_str operation_id ++ " failed: "
                    ++ py_str (match lookup "error" fields with
                               | Some v => v
                               | None => JStr "Unknown error"
                               end))))
      (logged fields w)
| run_unknown (fuel : nat) (w : World) (fields : list (string * json)) :
    budget_exceeded start_time (now w) timeout = false ->
    get_job_status env operation_id w = (Ok (JObj fields), polled w) ->
    unknown_state fields = true ->
    loop_run (S fuel) w
      (Raised (CaptionsAPIError
                 ("Unknown job state: " ++ py_str (state_of fields))))
      (logged fields w)
| run_sleep_raised (fuel : nat) (w : World) (fields : list (string * json))
    (e : exn) :
    budget_exceeded start_time (now w) timeout = false ->
    get_job_status env operation_id w = (Ok (JObj fields), polled w) ->
    nonterminal fields = true ->
    sleep_error poll_interval = Some e ->
    loop_run (S fuel) w (Raised e) (logged fields w)
| run_again (fuel : nat) (w : World) (fields : list (string * json))
    (r : Result json) (w' : World) :
    budget_exceeded start_time (now w) timeout = false ->
    get_job_status env operation_id w = (Ok (JObj fields), polled w) ->
    nonterminal fields = true ->
    sleep_error poll_interval = None ->
    loop_run fuel (after_sleep env poll_interval (logged fields w)) r w' ->
    loop_run (S fuel) w r w'.

End Runs.

(** An event of the polling loop: a poll for the operation, or a sleep of
    the poll interval. *)
Definition poll_or_sleep (operation_id : json) (poll_interval : Z) (e : Event)
  : Prop :=
  match e with
  | EvRequest _ r => r = poll_request operation_id
  | EvSleep d => d = poll_interval
  | _ => False
  end.

(** The request download_video sends. *)
Definition download_request (video_url : json) : Request :=
  mkRequest "GET" (py_str video_url) None true.

(** str(e) of the HTTPError that raise_for_status raises for [r]. *)
Definition status_line (r : Response) : string :=
  Py.str_of_Z (status_code r)
    ++ (if status_code r <? 500 then " Client Error: " else " Server Error: ")
    ++ reason r ++ " for url: " ++ url r.

(** A str that does not begin with a character of [drop]. *)
Definition starts_clean (drop : ascii -> bool) (s : string) : Prop :=
  match s with
  | EmptyString => True
  | String c _ => drop c = false
  end.

(** A character the pattern of sanitize_filename does not match. *)
Definition valid_char (c : ascii) : bool := negb (Utils.invalid_char c).

(* ---------------------------------------------------------------------- *)
(** * Fixtures: concrete servers and worlds                                *)
(* ---------------------------------------------------------------------- *)

Module Fixture.

(** A 200 answer whose body decodes to [body]. *)
Definition ok_response (body : json) : Response :=
  mkResponse 200 "OK" "" "" (Decoded body) "".

Definition status_of (state : string) : json := JObj [("state", JStr state)].

Definition epoch : DateTime := mkDateTime 2024 1 2 3 4 5.

(** The server answers the n-th request with the n-th entry of [script]
    and [fallback] afterwards; requests and sleeps take [lat] and [over]. *)
Definition scripted (script : list HttpOutcome) (fallback : HttpOutcome)
    (lat over : Q) : Env :=
  mkEnv (fun n _ => nth n script fallback) (fun _ => lat) (fun _ => over)
        (fun _ => epoch) (fun _ => None).

Definition world0 : World := mkWorld 0 0 0 [] [].

(** A server that gives the same answer to every request. *)
Definition always (o : HttpOutcome) : Env := scripted [] o 0 0.

(** 300 Multiple Choices, which requests does not follow, with a body
    that decodes to the empty dict *)
Definition multiple_choices : Response :=
  mkResponse 300 "Multiple Choices" "https://api.captions.ai/api/ads/poll" "{}"
             (Decoded (JObj [])) "{}".

(** 304 Not Modified, which has no body *)
Definition not_modified : Response :=
  mkResponse 304 "Not Modified" "https://api.captions.ai/api/ads/poll" ""
             (NotJson "Expecting value: line 1 column 1 (char 0)") "".

Definition unauthorized : Response :=
  mkResponse 401 "Unauthorized" "https://api.captions.ai/api/ads/poll" ""
             (NotJson "Expecting value: line 1 column 1 (char 0)") "".

(** 400 Bad Request whose body, [1,2], decodes to the list of 1 and 2 *)
Definition bad_request : Response :=
  mkResponse 400 "Bad Request" "https://api.captions.ai/api/ads/submit" "[1,2]"
             (Decoded (JArr [JInt 1; JInt 2])) "[1,2]".

(** "é", U+00E9 *)
Definition e_acute : string := String (ascii_of_N 233) "".

Definition op123 : json := JStr "op123".

Definition complete_status : list (string * json) :=
  [("state", JStr "COMPLETE"); ("url", JStr "https://x/video.mp4")].

Definition completes : Env := always (Responded (ok_response (JObj complete_status))).

Definition weird : Env := always (Responded (ok_response (status_of "WEIRD_STATE"))).

Definition stateless : Env :=
  always (Responded (ok_response (JObj [("progress", JInt 40)]))).

Definition pending : Env := always (Responded (ok_response (status_of "PENDING"))).

(** The poll sequence PENDING, PROCESSING, COMPLETE with its url. *)
Definition three_polls : Env :=
  scripted [Responded (ok_response (status_of "PENDING"));
            Responded (ok_response (status_of "PROCESSING"));
            Responded (ok_response (JObj complete_status))]
           (ConnectionFailed "no more answers") 0 0.

(** Submission answered with the handle "op123", first poll FAILED with
    error "bad media". *)
Definition failed_status : list (string * json) :=
  [("state", JStr "FAILED"); ("error", JStr "bad media")].

Definition failing : Env :=
  scripted [Responded (ok_response (JObj [("operationId", op123)]));
            Responded (ok_response (JObj failed_status))]
           (ConnectionFailed "no more answers") 0 0.

(** Submission, one COMPLETE poll, then the video body "VIDEO". *)
Definition succeeding : Env :=
  scripted [Responded (ok_response (JObj [("operationId", op123)]));
            Responded (ok_response (JObj complete_status));
            Responded (mkResponse 200 "OK" "https://x/video.mp4" ""
                                  (NotJson "Expecting value: line 1 column 1 (char 0)")
                                  "VIDEO")]
           (ConnectionFailed "no more answers") 0 0.

(** A 200 answer whose body is a web page, not JSON. *)
Definition web_page : Env :=
  always (Responded (mkResponse 200 "OK" "" "<html>"
                       (NotJson "Expecting value: line 1 column 1 (char 0)") "")).

(** Every poll answers FAILED with error "bad media". *)
Definition fails : Env := always (Responded (ok_response (JObj failed_status))).

(** A video body "VIDEO", served with status 200. *)
Definition video : Response :=
  mkResponse 200 "OK" "https://x/video.mp4" ""
             (NotJson "Expecting value: line 1 column 1 (char 0)") "VIDEO".

Definition serves_video : Env := always (Responded video).

Definition forbidden : Response :=
  mkResponse 403 "Forbidden" "https://x/video.mp4" "" (NotJson "no JSON") "".

(** An environment with the API key set, and one without. *)
Definition env_with_key (name : string) : option string :=
  if String.eqb name "CAPTIONS_API_KEY" then Some "from-env" else None.

Definition env_without_key (name : string) : option string := None.

(** The headers a requests session starts with. *)
Definition session_defaults : list (string * string) :=
  [("User-Agent", "python-requests/2.31.0");
   ("Accept-Encoding", "gzip, deflate");
   ("Accept", "*/*");
   ("Connection", "keep-alive")].

(** A server that cannot be reached. *)
Definition unreachable : Env := always (ConnectionFailed "Connection refused").

(** A world whose clock reads 400. *)
Definition late : World := mkWorld 400 0 0 [] [].

End Fixture.

(* ====================================================================== *)
(** * Properties                                                           *)
(* ====================================================================== *)

(* ---------------------------------------------------------------------- *)
(** ** Input validation                                                    *)
(* ---------------------------------------------------------------------- *)

Section Validation.

Lemma empty_is_short (s : string) :
  String.eqb s "" = true -> (Py.len (Py.strip s) <? 10) = true.
Proof.
  intros H. apply String.eqb_eq in H. subst s. reflexivity.
Qed.

Lemma empty_is_blank (s : string) :
  String.eqb s "" = true -> (Py.len (Py.strip s) <? 1) = true.
Proof.
  intros H. apply String.eqb_eq in H. subst s. reflexivity.
Qed.

Lemma len_lt_1 (s : string) : (Py.len s <? 1) = true <-> s = "".
Proof.
  unfold Py.len. destruct s as [|c s]; cbn [String.length].
  - split; reflexivity.
  - split; [intros H; apply Z.ltb_lt in H; lia | discriminate].
Qed.

Lemma str_in_In (x : string) (xs : list string) :
  Py.str_in x xs = true <-> In x xs.
Proof.
  unfold Py.str_in. rewrite existsb_exists. split.
  - intros [y [Hy E]]. apply String.eqb_eq in E. now subst.
  - intros H. exists x. split; [assumption | apply String.eqb_refl].
Qed.

(** The three tests of _validate_inputs, each reduced to one boolean. *)
Lemma validate_inputs_cases (script creator_name resolution : string) (w : World) :
  _validate_inputs script creator_name resolution w =
    if Py.len (Py.strip script) <? 10 then
      (Raised (CaptionsAPIError "Script must be at least 10 characters long"), w)
    else if Py.len (Py.strip creator_name) <? 1 then
      (Raised (CaptionsAPIError "Creator name is required"), w)
    else if Py.str_in (Py.lower resolution) valid_resolutions then (Ok tt, w)
    else (Raised (CaptionsAPIError
                    "Invalid resolution. Must be one of: fhd, hd, 4k"), w).
Proof.
  unfold _validate_inputs.
  destruct (Py.len (Py.strip script) <? 10) eqn:E1.
  - rewrite orb_true_r. reflexivity.
  - destruct (String.eqb script "") eqn:E0.
    + apply empty_is_short in E0. congruence.
    + cbn [orb].
      destruct (Py.len (Py.strip creator_name) <? 1) eqn:E2.
      * rewrite orb_true_r. reflexivity.
      * destruct (String.eqb creator_name "") eqn:E3.
        -- apply empty_is_blank in E3. congruence.
        -- cbn [orb].
           destruct (Py.str_in (Py.lower resolution) valid_resolutions);
             reflexivity.
Qed.

Lemma validated_resolution (script creator_name resolution : string) (w : World) :
  fst (_validate_inputs script creator_name resolution w) = Ok tt ->
  In (Py.lower resolution) valid_resolutions.
Proof.
  rewrite validate_inputs_cases. intros H.
  destruct (Py.len (Py.strip script) <? 10); [discriminate|].
  destruct (Py.len (Py.strip creator_name) <? 1); [discriminate|].
  destruct (Py.str_in (Py.lower resolution) valid_resolutions) eqn:E;
    [|discriminate].
  now apply str_in_In.
Qed.

(** C5. _validate_inputs raises exactly when the stripped script has fewer
    than 10 characters, or the stripped creator name is empty, or the
    lowercased resolution is none of "fhd", "hd", "4k"; otherwise it
    returns; either way it leaves the world (clock, requests, trace, log)
    as it found it. *)
Theorem validate_inputs_spec (script creator_name resolution : string) (w : World) :
  let r := _validate_inputs script creator_name resolution w in
  snd r = w
  /\ ((exists msg, fst r = Raised (CaptionsAPIError msg))
      <-> (Py.len (Py.strip script) < 10
           \/ Py.strip creator_name = ""
           \/ ~ In (Py.lower resolution) ["fhd"; "hd"; "4k"]))
  /\ (fst r = Ok tt
      <-> (10 <= Py.len (Py.strip script)
           /\ Py.strip creator_name <> ""
           /\ In (Py.lower resolution) ["fhd"; "hd"; "4k"])).
Proof.
  cbv zeta. rewrite validate_inputs_cases.
  change ["fhd"; "hd"; "4k"] with valid_resolutions.
  destruct (Py.len (Py.strip script) <? 10) eqn:E1;
    [apply Z.ltb_lt in E1 | apply Z.ltb_ge in E1];
    cbn [fst snd].
  { split; [reflexivity|]. split; split.
    - intros _. now left.
    - intros _. eexists. reflexivity.
    - discriminate.
    - intros [H _]. lia. }
  destruct (Py.len (Py.strip creator_name) <? 1) eqn:E2; cbn [fst snd].
  { apply len_lt_1 in E2.
    split; [reflexivity|]. split; split.
    - intros _. right. now left.
    - intros _. eexists. reflexivity.
    - discriminate.
    - intros [_ [H _]]. contradiction. }
  assert (N2 : Py.strip creator_name <> "").
  { intros H. apply len_lt_1 in H. congruence. }
  destruct (Py.str_in (Py.lower resolution) valid_resolutions) eqn:E3;
    cbn [fst snd].
  - apply str_in_In in E3.
    split; [reflexivity|]. split; split.
    + intros [msg H]. discriminate.
    + intros [H | [H | H]]; [lia | contradiction | contradiction].
    + intros _. auto.
    + reflexivity.
  - assert (N3 : ~ In (Py.lower resolution) valid_resolutions).
    { intros H. apply str_in_In in H. congruence. }
    split; [reflexivity|]. split; split.
    + intros _. right. now right.
    + intros _. eexists. reflexivity.
    + discriminate.
    + intros [_ [_ H]]. contradiction.
Qed.

End Validation.

(* ---------------------------------------------------------------------- *)
(** ** Generated file names                                                *)
(* ---------------------------------------------------------------------- *)

Section Filenames.

Lemma str_app_assoc (a b c : string) : (a ++ b) ++ c = a ++ b ++ c.
Proof.
  induction a as [|x a IH]; cbn [String.append]; [reflexivity|now rewrite IH].
Qed.

Lemma filter_app (p : ascii -> bool) (a b : string) :
  Py.filter p (a ++ b) = Py.filter p a ++ Py.filter p b.
Proof.
  induction a as [|c a IH]; cbn [Py.filter String.append].
  - reflexivity.
  - destruct (p c); cbn [String.append]; now rewrite IH.
Qed.

Lemma all_app (p : ascii -> bool) (a b : string) :
  Py.all p (a ++ b) = Py.all p a && Py.all p b.
Proof.
  induction a as [|c a IH]; cbn [Py.all String.append].
  - reflexivity.
  - now rewrite IH, andb_assoc.
Qed.

Lemma all_filter_same (p : ascii -> bool) (s : string) :
  Py.all p (Py.filter p s) = true.
Proof.
  induction s as [|c s IH]; cbn [Py.filter]; [reflexivity|].
  destruct (p c) eqn:E; cbn [Py.all]; [now rewrite E|assumption].
Qed.

Lemma all_filter_mono (p k : ascii -> bool) (s : string) :
  Py.all p s = true -> Py.all p (Py.filter k s) = true.
Proof.
  induction s as [|c s IH]; cbn [Py.filter Py.all]; [reflexivity|].
  intros H. apply andb_true_iff in H as [Hc Hs].
  destruct (k c); cbn [Py.all]; [rewrite Hc|]; auto.
Qed.

Lemma all_conj (p q r : ascii -> bool) (s : string) :
  (forall c, p c = true -> q c = true -> r c = true) ->
  Py.all p s = true -> Py.all q s = true -> Py.all r s = true.
Proof.
  intros Hpq. induction s as [|c s IH]; cbn [Py.all]; [reflexivity|].
  intros Hp Hq.
  apply andb_true_iff in Hp as [Hp1 Hp2].
  apply andb_true_iff in Hq as [Hq1 Hq2].
  rewrite (Hpq c Hp1 Hq1). auto.
Qed.

(** Among the ASCII characters the filter keeps exactly [A-Za-z0-9._-]. *)
Lemma keep_ascii_safe (c : ascii) :
  keep_char c = true -> Py.isascii c = true -> safe_char c = true.
Proof.
  destruct c as [[] [] [] [] [] [] [] []]; vm_compute; intros; congruence.
Qed.

Lemma uint_digits_ascii (u : Decimal.uint) :
  Py.all Py.isascii (NilEmpty.string_of_uint u) = true.
Proof.
  induction u; cbn [NilEmpty.string_of_uint Py.all]; auto.
Qed.

Lemma str_of_N_ascii (n : N) : Py.all Py.isascii (Py.str_of_N n) = true.
Proof.
  unfold Py.str_of_N, NilZero.string_of_uint.
  destruct (N.to_uint n) eqn:E; try reflexivity; rewrite <- E;
    apply uint_digits_ascii.
Qed.

Lemma pad2_ascii (n : N) : Py.all Py.isascii (Py.pad2 n) = true.
Proof.
  unfold Py.pad2. destruct (n <? 10)%N.
  - rewrite all_app, str_of_N_ascii. reflexivity.
  - apply str_of_N_ascii.
Qed.

Lemma strftime_ascii (d : DateTime) : Py.all Py.isascii (strftime d) = true.
Proof.
  unfold strftime.
  repeat rewrite all_app.
  now rewrite str_of_N_ascii, !pad2_ascii.
Qed.

Lemma filename_of_suffix (script creator_name resolution timestamp : string) :
  exists stem,
    filename_of script creator_name resolution timestamp = stem ++ ".mp4".
Proof.
  unfold filename_of.
  exists (Py.filter keep_char
            ("ai_ad_" ++ creator_name ++ "_" ++ resolution ++ "_" ++ timestamp)).
  rewrite <- (filter_app keep_char _ ".mp4").
  f_equal. now rewrite !str_app_assoc.
Qed.

Lemma filename_of_ascii (script creator_name resolution timestamp : string) :
  Py.all Py.isascii creator_name = true ->
  Py.all Py.isascii resolution = true ->
  Py.all Py.isascii timestamp = true ->
  Py.all safe_char (filename_of script creator_name resolution timestamp) = true.
Proof.
  intros Hc Hr Ht. unfold filename_of.
  apply (all_conj keep_char Py.isascii safe_char); [exact keep_ascii_safe | |].
  - apply all_filter_same.
  - apply all_filter_mono.
    repeat rewrite all_app. rewrite Hc, Hr, Ht. reflexivity.
Qed.

(** C7, as stated, fails: a creator name with an accented letter passes
    str.isalnum, so the letter stays in the file name although it is not
    in [A-Za-z0-9._-]. *)
Lemma generated_filename_not_ascii_safe :
  ~ (forall (env : Env) (script creator_name resolution : string)
            (w : World) (name : string),
        fst (_generate_filename env script creator_name resolution w) = Ok name ->
        Py.all safe_char name = true).
Proof.
  intros H.
  specialize (H (Fixture.scripted [] (ConnectionFailed "") 0 0)
                "Buy it today!" Fixture.e_acute "fhd" Fixture.world0 _ eq_refl).
  vm_compute in H. discriminate.
Qed.

(** C7, amended. _generate_filename always returns, leaves the world
    alone, and its result is a function of creator name, resolution and
    timestamp only (the script plays no part); every character of it
    passes str.isalnum or is one of "._-" (so lies in [A-Za-z0-9._-]
    whenever creator name and resolution are ASCII), the others being
    dropped; and it ends in ".mp4". *)
Theorem generate_filename_spec (env : Env)
    (script creator_name resolution : string) (w : World) :
  exists name,
    _generate_filename env script creator_name resolution w = (Ok name, w)
    /\ name = filename_of "" creator_name resolution
                (strftime (calendar env (now w)))
    /\ Py.all keep_char name = true
    /\ (Py.all Py.isascii creator_name = true ->
        Py.all Py.isascii resolution = true ->
        Py.all safe_char name = true)
    /\ exists stem, name = stem ++ ".mp4".
Proof.
  eexists. split; [reflexivity|]. split; [reflexivity|]. split; [|split].
  - apply all_filter_same.
  - intros Hc Hr. apply filename_of_ascii; auto using strftime_ascii.
  - apply filename_of_suffix.
Qed.

Lemma generate_filename_spec_witness :
  exists name,
    _generate_filename (Fixture.scripted [] (ConnectionFailed "") 0 0)
      "Buy it today!" "Jane's Ad!" "fhd" Fixture.world0
    = (Ok name, Fixture.world0)
    /\ Py.all safe_char name = true.
Proof.
  destruct (generate_filename_spec (Fixture.scripted [] (ConnectionFailed "") 0 0)
              "Buy it today!" "Jane's Ad!" "fhd" Fixture.world0)
    as [name [E [_ [_ [A _]]]]].
  exists name. split; [exact E | apply A; reflexivity].
Defined.

Example generate_filename_jane :
  fst (_generate_filename (Fixture.scripted [] (ConnectionFailed "") 0 0)
         "Buy it today!" "Jane's Ad!" "fhd" Fixture.world0)
  = Ok "ai_ad_JanesAd_fhd_20240102_030405.mp4".
Proof. reflexivity. Qed.

End Filenames.

(* ---------------------------------------------------------------------- *)
(** ** Transport: _make_request                                            *)
(* ---------------------------------------------------------------------- *)

Section Transport.

Variable env : Env.

Ltac status_cases :=
  repeat match goal with
         | |- context [?a =? ?b] => destruct (Z.eqb_spec a b)
         | |- context [?a <=? ?b] => destruct (Z.leb_spec a b)
         | |- context [?a <? ?b] => destruct (Z.ltb_spec a b)
         end; cbn; try lia; try reflexivity; try congruence.

(** Whatever the outcome, _make_request issues exactly one request. *)
Lemma make_request_world (method endpoint : string) (payload : option json)
    (w : World) :
  snd (_make_request env method endpoint payload w)
  = after_request env (mkRequest method (urljoin BASE_URL endpoint) payload false) w.
Proof.
  unfold _make_request, try_except, bind, session_request.
  destruct (http env (requests w) _) as [detail | r]; [reflexivity|].
  unfold raise_for_status.
  destruct ((400 <=? status_code r) && (status_code r <? 500)) eqn:E4;
    [|destruct ((500 <=? status_code r) && (status_code r <? 600)) eqn:E5].
  - cbn. status_cases; unfold response_json;
      destruct (json_body r) as [? | ? | [? | ?]]; reflexivity.
  - cbn. status_cases; unfold response_json;
      destruct (json_body r) as [? | ? | [? | ?]]; reflexivity.
  - cbn. unfold response_json.
    destruct (json_body r) as [? | ? | [? | ?]]; reflexivity.
Qed.

Lemma make_request_answers (method endpoint : string) (payload : option json)
    (w : World) (body : json) :
  answers (http env (requests w)
                (mkRequest method (urljoin BASE_URL endpoint) payload false)) body ->
  _make_request env method endpoint payload w
  = (Ok body,
     after_request env (mkRequest method (urljoin BASE_URL endpoint) payload false) w).
Proof.
  intros [r [Hr [Hs Hb]]].
  unfold _make_request, try_except, bind, session_request.
  rewrite Hr. unfold raise_for_status.
  replace ((400 <=? status_code r) && (status_code r <? 500)) with false
    by (symmetry; apply andb_false_iff; rewrite Z.leb_gt, Z.ltb_ge; lia).
  replace ((500 <=? status_code r) && (status_code r <? 600)) with false
    by (symmetry; apply andb_false_iff; rewrite Z.leb_gt, Z.ltb_ge; lia).
  cbn. unfold response_json. rewrite Hb. reflexivity.
Qed.

(** C6, as stated, fails: raise_for_status lets a 3xx answer through, so a
    300 Multiple Choices whose body decodes is returned as a result, not
    mapped to an error. *)
Lemma make_request_300_is_no_error :
  ~ (forall (env : Env) (method endpoint : string) (payload : option json)
            (w : World) (resp : Response),
        http env (requests w)
             (mkRequest method (urljoin BASE_URL endpoint) payload false)
          = Responded resp ->
        ~ (200 <= status_code resp < 300) ->
        exists msg,
          fst (_make_request env method endpoint payload w)
            = Raised (CaptionsAPIError msg)).
Proof.
  intros H.
  destruct (H (Fixture.always (Responded Fixture.multiple_choices))
              "POST" "/api/ads/poll" None Fixture.world0
              Fixture.multiple_choices eq_refl) as [msg E].
  - cbn. lia.
  - vm_compute in E. discriminate.
Qed.

(** C6, amended. Every call issues one request and maps its failure to a
    CaptionsAPIError: a transport failure to "API request failed: " with
    the underlying detail; 401, 429 and 402 to their fixed messages; 400
    to "Bad request: " with some detail, the raw response text when the
    body does not decode; any other 4xx or 5xx status to
    "API request failed: " with the status line of the HTTPError.  An
    answer with any other status is no failure by its status: when its
    body decodes the decoded value is returned; when its body is not JSON
    that is reported as "API request failed: " with the decoding error;
    and when the decoder itself gives up (RecursionError, the ValueError
    of an over-long integer) that exception is the one failure that is
    not mapped. *)
Theorem make_request_error_mapping (method endpoint : string)
    (payload : option json) (w : World) :
  let run := _make_request env method endpoint payload w in
  requests (snd run) = S (requests w)
  /\ match http env (requests w)
                (mkRequest method (urljoin BASE_URL endpoint) payload false) with
     | ConnectionFailed detail =>
         fst run = Raised (CaptionsAPIError ("API request failed: " ++ detail))
     | Responded resp =>
         (status_code resp = 401 ->
          fst run = Raised (CaptionsAPIError
                              "Invalid API key. Please check your credentials."))
         /\ (status_code resp = 429 ->
             fst run = Raised (CaptionsAPIError
                                 "Rate limit exceeded. Please wait before making another request."))
         /\ (status_code resp = 402 ->
             fst run = Raised (CaptionsAPIError
                                 "Insufficient credits. Please purchase more credits."))
         /\ (status_code resp = 400 ->
             (exists detail,
                 fst run = Raised (CaptionsAPIError ("Bad request: " ++ detail)))
             /\ ((forall v, json_body resp <> Decoded v) ->
                 fst run = Raised (CaptionsAPIError
                                     ("Bad request: " ++ text resp))))
         /\ (400 <= status_code resp < 600 ->
             ~ In (status_code resp) [401; 429; 402; 400] ->
             fst run = Raised (CaptionsAPIError
                                 ("API request failed: "
                                    ++ Py.str_of_Z (status_code resp)
                                    ++ (if status_code resp <? 500
                                        then " Client Error: "
                                        else " Server Error: ")
                                    ++ reason resp ++ " for url: " ++ url resp)))
         /\ (status_code resp < 400 \/ 600 <= status_code resp ->
             (forall v, json_body resp = Decoded v -> fst run = Ok v)
             /\ (forall why, json_body resp = NotJson why ->
                   fst run = Raised (CaptionsAPIError
                                       ("API request failed: " ++ why)))
             /\ (forall c, json_body resp = Crashed c ->
                   fst run = Raised (crash_exn c)))
     end.
Proof.
  cbv zeta. split.
  { rewrite make_request_world. reflexivity. }
  unfold _make_request, try_except, bind, session_request.
  destruct (http env (requests w) _) as [detail | r]; [reflexivity|].
  unfold raise_for_status.
  split; [|split; [|split; [|split; [|split]]]].
  - intros E. rewrite E. cbn. rewrite E. reflexivity.
  - intros E. rewrite E. cbn. rewrite E. reflexivity.
  - intros E. rewrite E. cbn. rewrite E. reflexivity.
  - intros E. rewrite E. cbn. rewrite E. cbn. unfold response_json. split.
    + destruct (json_body r) as [? | ? | [? | ?]]; cbn; eexists; reflexivity.
    + intros N. destruct (json_body r) as [v | ? | [? | ?]];
        [now destruct (N v) | reflexivity ..].
  - intros Hr Hn. cbn [In] in Hn.
    assert (N1 : (status_code r =? 401) = false) by (apply Z.eqb_neq; lia).
    assert (N2 : (status_code r =? 429) = false) by (apply Z.eqb_neq; lia).
    assert (N3 : (status_code r =? 402) = false) by (apply Z.eqb_neq; lia).
    assert (N4 : (status_code r =? 400) = false) by (apply Z.eqb_neq; lia).
    assert (G4 : (400 <=? status_code r) = true) by (apply Z.leb_le; lia).
    assert (G6 : (status_code r <? 600) = true) by (apply Z.ltb_lt; lia).
    rewrite G4, G6.
    destruct (Z.ltb_spec (status_code r) 500) as [L | L].
    + cbn. rewrite N1, N2, N3, N4. reflexivity.
    + assert (G5 : (500 <=? status_code r) = true) by (apply Z.leb_le; lia).
      rewrite G5. cbn. rewrite N1, N2, N3, N4. reflexivity.
  - intros P.
    replace ((400 <=? status_code r) && (status_code r <? 500)) with false
      by (symmetry; apply andb_false_iff; rewrite Z.leb_gt, Z.ltb_ge; lia).
    replace ((500 <=? status_code r) && (status_code r <? 600)) with false
      by (symmetry; apply andb_false_iff; rewrite Z.leb_gt, Z.ltb_ge; lia).
    cbn. unfold response_json.
    split; [intros v J | split; [intros why J | intros c J]]; rewrite J;
      try reflexivity.
    destruct c; reflexivity.
Qed.

End Transport.

Lemma make_request_error_mapping_witness :
  fst (_make_request (Fixture.always (Responded Fixture.unauthorized))
         "POST" "/api/ads/poll" None Fixture.world0)
  = Raised (CaptionsAPIError "Invalid API key. Please check your credentials.").
Proof.
  pose proof (make_request_error_mapping
                (Fixture.always (Responded Fixture.unauthorized))
                "POST" "/api/ads/poll" None Fixture.world0) as H.
  cbv zeta in H. destruct H as [_ H]. cbn in H.
  destruct H as [H _]. apply H. reflexivity.
Defined.

(** A 304 as a client sees it, without a body, is reported as a failure
    of the decoding. *)
Example not_modified_is_reported :
  fst (_make_request (Fixture.always (Responded Fixture.not_modified))
         "POST" "/api/ads/poll" None Fixture.world0)
  = Raised (CaptionsAPIError
              "API request failed: Expecting value: line 1 column 1 (char 0)").
Proof. reflexivity. Qed.

(** On a 400 whose body decodes, the CaptionsAPIError raised inside the
    inner try is caught by its own bare except: the message carries the
    raw text "[1,2]", not the decoded value, which prints as "[1, 2]". *)
Example bad_request_carries_raw_text :
  fst (_make_request (Fixture.always (Responded Fixture.bad_request))
         "POST" "/api/ads/submit" None Fixture.world0)
  = Raised (CaptionsAPIError "Bad request: [1,2]")
  /\ py_str (JArr [JInt 1; JInt 2]) = "[1, 2]".
Proof. split; reflexivity. Qed.

(* ---------------------------------------------------------------------- *)
(** ** Submission: create_ai_ad                                            *)
(* ---------------------------------------------------------------------- *)

Section Submission.

Variable env : Env.

(** create_ai_ad sends one request, the submit payload, whatever comes
    back. *)
Lemma create_ai_ad_trace (script creator_name : string)
    (media_urls : option (list string)) (resolution : string)
    (webhook_id : option string) (w : World) :
  trace (snd (create_ai_ad env script creator_name media_urls resolution
                webhook_id w))
  = (trace w ++ [EvRequest (now w)
                   (api_request "/api/ads/submit"
                      (submit_payload script creator_name media_urls
                         resolution webhook_id))])%list.
Proof.
  unfold create_ai_ad, bind, logger_info.
  match goal with
  | |- context [_make_request env ?m ?e ?p ?w1] =>
      pose proof (make_request_world env m e p w1) as HW;
      destruct (_make_request env m e p w1) as [[response | e' |] w2]
  end; cbn [snd] in HW; subst w2; try reflexivity.
  destruct response; try reflexivity.
  cbn [dict_get ret].
  destruct (truthy _); reflexivity.
Qed.

Lemma payload_resolution (script creator_name : string)
    (media_urls : option (list string)) (resolution : string)
    (webhook_id : option string) :
  exists fields,
    submit_payload script creator_name media_urls resolution webhook_id
      = JObj fields
    /\ lookup "resolution" fields = Some (JStr resolution)
    /\ lookup "mediaUrls" fields
       = Some (JArr (map JStr
                       (if falsy_list media_urls then [placeholder_media_url]
                        else match media_urls with
                             | Some l => l
                             | None => []
                             end))).
Proof.
  unfold submit_payload. eexists. split; [reflexivity|].
  destruct (falsy_str webhook_id); [split; reflexivity|].
  destruct webhook_id; split; reflexivity.
Qed.

(** C8, as stated, fails: validation compares the lowercased resolution,
    the payload carries the resolution as given, so "FHD" is submitted
    as "FHD". *)
Lemma submitted_resolution_keeps_case :
  ~ (forall (env : Env) (script creator_name : string)
            (media_urls : option (list string)) (resolution : string)
            (webhook_id : option string) (w : World)
            (t : Q) (fields : list (string * json)),
        fst (_validate_inputs script creator_name resolution w) = Ok tt ->
        trace (snd (create_ai_ad env script creator_name media_urls
                      resolution webhook_id w))
          = (trace w ++ [EvRequest t (api_request "/api/ads/submit" (JObj fields))])%list ->
        exists r, lookup "resolution" fields = Some (JStr r)
                  /\ In r valid_resolutions).
Proof.
  intros H.
  edestruct (H (Fixture.always (ConnectionFailed "down"))
               "Buy it today!" "Jane" None "FHD" None Fixture.world0)
    as [r [L I]].
  - reflexivity.
  - vm_compute. reflexivity.
  - vm_compute in L. injection L as <-.
    cbn in I. destruct I as [I | [I | [I | []]]]; discriminate.
Qed.

(** C8, amended. When the inputs pass _validate_inputs, the payload that
    create_ai_ad sends has a resolution field whose lowercase form is one
    of "fhd", "hd", "4k" (the field itself is the resolution as given),
    and a mediaUrls list that is not empty: the caller's list, or the one
    placeholder URL when the caller gave none. *)
Theorem submitted_payload_invariants (script creator_name : string)
    (media_urls : option (list string)) (resolution : string)
    (webhook_id : option string) (w0 w : World) :
  fst (_validate_inputs script creator_name resolution w0) = Ok tt ->
  exists fields media,
    trace (snd (create_ai_ad env script creator_name media_urls resolution
                  webhook_id w))
      = (trace w ++ [EvRequest (now w)
                       (api_request "/api/ads/submit" (JObj fields))])%list
    /\ lookup "resolution" fields = Some (JStr resolution)
    /\ In (Py.lower resolution) valid_resolutions
    /\ lookup "mediaUrls" fields = Some (JArr (map JStr media))
    /\ media <> []
    /\ (falsy_list media_urls = true -> media = [placeholder_media_url])
    /\ (falsy_list media_urls = false -> media_urls = Some media).
Proof.
  intros V.
  destruct (payload_resolution script creator_name media_urls resolution
              webhook_id) as [fields [EP [ER EM]]].
  exists fields. eexists.
  rewrite create_ai_ad_trace, EP.
  split; [reflexivity|]. split; [exact ER|]. split.
  { exact (validated_resolution script creator_name resolution w0 V). }
  split; [exact EM|].
  destruct media_urls as [[|u l]|]; cbn; repeat split; congruence.
Qed.

End Submission.

Lemma submitted_payload_invariants_witness :
  In (Py.lower "4K") valid_resolutions.
Proof.
  destruct (submitted_payload_invariants (Fixture.always (ConnectionFailed "down"))
              "Buy it today!" "Jane" None "4K" None
              Fixture.world0 Fixture.world0 eq_refl)
    as [fields [media [_ [_ [I _]]]]].
  exact I.
Defined.

(* ---------------------------------------------------------------------- *)
(** ** The polling loop: wait_for_completion                               *)
(* ---------------------------------------------------------------------- *)

Section Polling.

Variable env : Env.

Lemma get_job_status_answers (operation_id body : json) (w : World) :
  answers (http env (requests w) (poll_request operation_id)) body ->
  get_job_status env operation_id w
  = (Ok body, after_request env (poll_request operation_id) w).
Proof.
  intros H. unfold get_job_status.
  apply (make_request_answers env "POST" "/api/ads/poll"); exact H.
Qed.

Lemma get_job_status_world (operation_id : json) (w : World) :
  snd (get_job_status env operation_id w)
  = after_request env (poll_request operation_id) w.
Proof.
  unfold get_job_status. apply make_request_world.
Qed.

(** One turn of the loop on a status dict, budget not exceeded. *)
Lemma wait_loop_step (fuel : nat) (operation_id : json)
    (timeout poll_interval : Z) (start_time : Q) (w : World)
    (fields : list (string * json)) :
  budget_exceeded start_time (now w) timeout = false ->
  answers (http env (requests w) (poll_request operation_id)) (JObj fields) ->
  wait_loop env (S fuel) operation_id timeout poll_interval start_time w
  = let state := state_of fields in
    let w1 := after_log ("Job " ++ py_str operation_id ++ " status: "
                           ++ py_str state)
                (after_request env (poll_request operation_id) w) in
    if eq_str state "COMPLETE" then
      if truthy (field "url" fields) then
        (Ok (field "url" fields),
         after_log ("Video generation completed: "
                      ++ py_str (field "url" fields)) w1)
      else
        (Raised (CaptionsAPIError "Job completed but no video URL found"), w1)
    else if eq_str state "FAILED" then
      (Raised (CaptionsAPIError
                 ("Job " ++ py_str operation_id ++ " failed: "
                    ++ py_str (match lookup "error" fields with
                               | Some v => v
                               | None => JStr "Unknown error"
                               end))), w1)
    else if in_strs state ["PENDING"; "PROCESSING"; "QUEUED"] then
      match sleep_error poll_interval with
      | Some e => (Raised e, w1)
      | None =>
          wait_loop env fuel operation_id timeout poll_interval start_time
            (after_sleep env poll_interval w1)
      end
    else
      (Raised (CaptionsAPIError ("Unknown job state: " ++ py_str state)), w1).
Proof.
  intros Hb Ha.
  cbn [wait_loop]. unfold bind at 1. unfold time_time at 1.
  rewrite Hb. unfold bind at 1.
  rewrite (get_job_status_answers _ _ _ Ha).
  cbv zeta. unfold bind, dict_get, ret, logger_info, state_of, field, time_sleep.
  destruct (eq_str _ "COMPLETE").
  - destruct (truthy _); reflexivity.
  - destruct (eq_str _ "FAILED"); [reflexivity|].
    destruct (in_strs _ _); [|reflexivity].
    destruct (sleep_error poll_interval); reflexivity.
Qed.

Lemma eq_str_neq (v : json) (s : string) : v <> JStr s -> eq_str v s = false.
Proof.
  intros H. destruct v; try reflexivity. cbn.
  destruct (String.eqb_spec s0 s); [subst; contradiction | reflexivity].
Qed.

(** C3. On a status whose state is "COMPLETE" the loop ends at once: with
    the url when the status has one (a value that counts as true), with
    "Job completed but no video URL found" when it has none; one request
    was issued for the turn, none follows and nothing is slept. *)
Theorem complete_is_terminal (fuel : nat) (operation_id : json)
    (timeout poll_interval : Z) (start_time : Q) (w : World)
    (fields : list (string * json)) :
  budget_exceeded start_time (now w) timeout = false ->
  answers (http env (requests w) (poll_request operation_id)) (JObj fields) ->
  lookup "state" fields = Some (JStr "COMPLETE") ->
  let run := wait_loop env (S fuel) operation_id timeout poll_interval
               start_time w in
  (truthy (field "url" fields) = true -> fst run = Ok (field "url" fields))
  /\ (forall u, lookup "url" fields = Some (JStr u) -> u <> "" ->
        fst run = Ok (JStr u))
  /\ (truthy (field "url" fields) = false ->
        fst run = Raised (CaptionsAPIError
                            "Job completed but no video URL found"))
  /\ (lookup "url" fields = None ->
        fst run = Raised (CaptionsAPIError
                            "Job completed but no video URL found"))
  /\ one_poll_no_sleep operation_id w (snd run).
Proof.
  intros Hb Ha Hs. cbv zeta.
  rewrite (wait_loop_step _ _ _ _ _ _ _ Hb Ha). cbv zeta.
  unfold state_of. rewrite Hs. cbn [eq_str String.eqb Ascii.eqb Bool.eqb].
  split; [|split; [|split; [|split]]].
  - intros T. rewrite T. reflexivity.
  - intros u Hu Hne. unfold field. rewrite Hu. cbn [truthy].
    destruct (String.eqb_spec u ""); [contradiction | reflexivity].
  - intros T. rewrite T. reflexivity.
  - intros Hu. unfold field. rewrite Hu. reflexivity.
  - destruct (truthy _); repeat split; reflexivity.
Qed.

(** C4. On a status whose state is none of "PENDING", "PROCESSING",
    "QUEUED", "COMPLETE", "FAILED" the loop ends at once with
    "Unknown job state: " followed by the state as it came; no further
    request is issued. *)
Theorem unknown_state_is_terminal (fuel : nat) (operation_id : json)
    (timeout poll_interval : Z) (start_time : Q) (w : World)
    (fields : list (string * json)) (state : json) :
  budget_exceeded start_time (now w) timeout = false ->
  answers (http env (requests w) (poll_request operation_id)) (JObj fields) ->
  lookup "state" fields = Some state ->
  (forall s, In s ["PENDING"; "PROCESSING"; "QUEUED"; "COMPLETE"; "FAILED"] ->
             state <> JStr s) ->
  let run := wait_loop env (S fuel) operation_id timeout poll_interval
               start_time w in
  fst run = Raised (CaptionsAPIError ("Unknown job state: " ++ py_str state))
  /\ one_poll_no_sleep operation_id w (snd run).
Proof.
  intros Hb Ha Hs Hn. cbv zeta.
  rewrite (wait_loop_step _ _ _ _ _ _ _ Hb Ha). cbv zeta.
  unfold state_of. rewrite Hs. unfold in_strs. cbn [existsb].
  rewrite !eq_str_neq by (apply Hn; cbn; tauto).
  cbn [orb]. repeat split; reflexivity.
Qed.

(** C10. On a status with no "state" key the state is taken to be
    "unknown", which is no known state: the loop ends at once with
    "Unknown job state: unknown", without sleeping or polling again. *)
Theorem missing_state_is_terminal (fuel : nat) (operation_id : json)
    (timeout poll_interval : Z) (start_time : Q) (w : World)
    (fields : list (string * json)) :
  budget_exceeded start_time (now w) timeout = false ->
  answers (http env (requests w) (poll_request operation_id)) (JObj fields) ->
  lookup "state" fields = None ->
  let run := wait_loop env (S fuel) operation_id timeout poll_interval
               start_time w in
  state_of fields = JStr "unknown"
  /\ fst run = Raised (CaptionsAPIError "Unknown job state: unknown")
  /\ one_poll_no_sleep operation_id w (snd run).
Proof.
  intros Hb Ha Hs. cbv zeta.
  rewrite (wait_loop_step _ _ _ _ _ _ _ Hb Ha). cbv zeta.
  unfold state_of. rewrite Hs.
  repeat split; reflexivity.
Qed.

Lemma budget_exceeded_true (start_time t : Q) (timeout : Z) :
  budget_exceeded start_time t timeout = true
  <-> (inject_Z timeout < t - start_time)%Q.
Proof.
  unfold budget_exceeded. rewrite negb_true_iff. split.
  - intros H. apply Qnot_le_lt. intros L.
    apply Qle_bool_iff in L. congruence.
  - intros H. destruct (Qle_bool _ _) eqn:E; [|reflexivity].
    apply Qle_bool_iff in E. exfalso. exact (Qlt_not_le _ _ H E).
Qed.

Lemma budget_exceeded_false (start_time t : Q) (timeout : Z) :
  budget_exceeded start_time t timeout = false
  <-> (t - start_time <= inject_Z timeout)%Q.
Proof.
  unfold budget_exceeded. rewrite negb_false_iff. apply Qle_bool_iff.
Qed.

(** A turn that finds the budget exceeded raises and touches nothing. *)
Lemma timeout_turn (fuel : nat) (operation_id : json)
    (timeout poll_interval : Z) (start_time : Q) (w : World) :
  (inject_Z timeout < now w - start_time)%Q ->
  wait_loop env (S fuel) operation_id timeout poll_interval start_time w
  = (Raised (CaptionsAPIError
               ("Job " ++ py_str operation_id ++ " timed out after "
                  ++ Py.str_of_Z timeout ++ " seconds")), w).
Proof.
  intros H. apply budget_exceeded_true in H.
  cbn [wait_loop]. unfold bind, time_time. rewrite H. reflexivity.
Qed.

(** Every request of the loop was issued within the budget. *)
Lemma polls_within_budget (operation_id : json) (timeout poll_interval : Z)
    (start_time : Q) (fuel : nat) :
  forall w : World,
  exists evs,
    trace (snd (wait_loop env fuel operation_id timeout poll_interval
                  start_time w))
      = (trace w ++ evs)%list
    /\ Forall (within_budget start_time timeout) evs.
Proof.
  induction fuel as [|fuel IH]; intros w.
  { exists []. cbn. rewrite app_nil_r. auto. }
  cbn [wait_loop]. unfold bind at 1. unfold time_time at 1.
  destruct (budget_exceeded start_time (now w) timeout) eqn:B.
  { exists []. cbn. rewrite app_nil_r. auto. }
  apply budget_exceeded_false in B.
  assert (HB : within_budget start_time timeout
                 (EvRequest (now w) (poll_request operation_id))) by exact B.
  assert (One : forall (r : Result json) (msgs : list string),
             exists evs,
               trace (snd (r, mkWorld
                                (now (after_request env (poll_request operation_id) w))
                                (requests (after_request env (poll_request operation_id) w))
                                (sleeps (after_request env (poll_request operation_id) w))
                                (trace (after_request env (poll_request operation_id) w))
                                msgs))
                 = (trace w ++ evs)%list
               /\ Forall (within_budget start_time timeout) evs).
  { intros r msgs. exists [EvRequest (now w) (poll_request operation_id)].
    split; [reflexivity | auto]. }
  unfold bind at 1.
  pose proof (get_job_status_world operation_id w) as HW.
  destruct (get_job_status env operation_id w) as [[status | e |] w1];
    cbn [snd] in HW; subst w1;
    [| destruct w; apply One | destruct w; apply One].
  destruct status; try (destruct w; apply One).
  cbn [dict_get]. unfold bind, ret, logger_info, after_log.
  destruct (eq_str _ "COMPLETE").
  { destruct (truthy _); apply One. }
  destruct (eq_str _ "FAILED"); [apply One|].
  destruct (in_strs _ _); [|apply One].
  unfold time_sleep. destruct (sleep_error poll_interval); [apply One|].
  match goal with
  | |- context [wait_loop env fuel _ _ _ _ ?w2] =>
      destruct (IH w2) as [evs [E F]]; rewrite E
  end.
  exists (EvRequest (now w) (poll_request operation_id)
            :: EvSleep poll_interval :: evs).
  split.
  - cbn [trace after_sleep after_request]. rewrite <- !app_assoc. reflexivity.
  - constructor; [exact HB | constructor; [exact I | exact F]].
Qed.

(** C1. The budget is checked at the top of every turn, before the poll:
    a turn that starts later than [timeout] after the start raises
    "Job <id> timed out after <timeout> seconds" and issues no request, so
    every request of a run was issued within the budget.  With timeout 1
    and poll interval 10, when the first status is not terminal, the run
    polls once, sleeps once and then raises the timeout error. *)
Theorem timeout_checked_before_each_poll (operation_id : json) :
  default_timeout = 300
  /\ (forall (fuel : nat) (timeout poll_interval : Z) (start_time : Q)
             (w : World),
        (inject_Z timeout < now w - start_time)%Q ->
        wait_loop env (S fuel) operation_id timeout poll_interval start_time w
        = (Raised (CaptionsAPIError
                     ("Job " ++ py_str operation_id ++ " timed out after "
                        ++ Py.str_of_Z timeout ++ " seconds")), w))
  /\ (forall (fuel : nat) (timeout poll_interval : Z) (w : World),
        exists evs,
          trace (snd (wait_for_completion env fuel operation_id timeout
                        poll_interval w))
            = (trace w ++ evs)%list
          /\ Forall (within_budget (now w) timeout) evs)
  /\ (forall (fuel : nat) (w : World) (fields : list (string * json)),
        answers (http env (requests w) (poll_request operation_id))
                (JObj fields) ->
        in_strs (state_of fields) ["PENDING"; "PROCESSING"; "QUEUED"] = true ->
        (0 <= latency env (requests w))%Q ->
        (0 <= oversleep env (sleeps w))%Q ->
        let run := wait_for_completion env (S (S fuel)) operation_id 1 10 w in
        fst run = Raised (CaptionsAPIError
                            ("Job " ++ py_str operation_id
                               ++ " timed out after 1 seconds"))
        /\ trace (snd run)
           = (trace w ++ [EvRequest (now w) (poll_request operation_id);
                          EvSleep 10])%list
        /\ requests (snd run) = S (requests w)).
Proof.
  split; [reflexivity|]. split; [|split].
  - intros fuel timeout poll_interval start_time w H.
    apply timeout_turn. exact H.
  - intros fuel timeout poll_interval w.
    apply (polls_within_budget operation_id timeout poll_interval (now w) fuel w).
  - intros fuel w fields Ha Hs Hl Ho. cbv zeta.
    assert (B0 : budget_exceeded (now w) (now w) 1 = false).
    { apply budget_exceeded_false. change (inject_Z 1) with 1%Q. lra. }
    assert (NC : eq_str (state_of fields) "COMPLETE" = false).
    { destruct (state_of fields) as [| | |s| |]; try reflexivity.
      unfold in_strs in Hs. cbn in Hs. cbn [eq_str].
      destruct (String.eqb_spec s "COMPLETE"); [subst; discriminate|reflexivity]. }
    assert (NF : eq_str (state_of fields) "FAILED" = false).
    { destruct (state_of fields) as [| | |s| |]; try reflexivity.
      unfold in_strs in Hs. cbn in Hs. cbn [eq_str].
      destruct (String.eqb_spec s "FAILED"); [subst; discriminate|reflexivity]. }
    eassert (E : wait_for_completion env (S (S fuel)) operation_id 1 10 w = _).
    { unfold wait_for_completion. unfold bind. unfold time_time.
      rewrite (wait_loop_step _ _ _ _ _ _ _ B0 Ha). cbv zeta.
      rewrite NC, NF, Hs.
      change (sleep_error 10) with (@None exn). cbv iota.
      apply timeout_turn.
      cbn [now sleeps after_sleep after_log after_request].
      change (inject_Z 1) with 1%Q. change (inject_Z 10) with 10%Q. lra. }
    rewrite E. cbn [fst snd trace requests after_sleep after_log after_request].
    rewrite <- app_assoc. repeat split; reflexivity.
Qed.

(** C2. Under the default timeout and poll interval, when the polls
    answer PENDING, PROCESSING and then COMPLETE with the url
    "https://x/video.mp4" (and the two waits fit in the budget), the run
    returns that url after three polls and exactly two sleeps of 10, one
    after each of the first two polls and none after the last. *)
Theorem three_polls_two_sleeps (fuel : nat) (operation_id : json) (w : World)
    (f0 f1 f2 : list (string * json)) :
  answers (http env (requests w) (poll_request operation_id)) (JObj f0) ->
  lookup "state" f0 = Some (JStr "PENDING") ->
  answers (http env (S (requests w)) (poll_request operation_id)) (JObj f1) ->
  lookup "state" f1 = Some (JStr "PROCESSING") ->
  answers (http env (S (S (requests w))) (poll_request operation_id)) (JObj f2) ->
  lookup "state" f2 = Some (JStr "COMPLETE") ->
  lookup "url" f2 = Some (JStr "https://x/video.mp4") ->
  (latency env (requests w) + (10 + oversleep env (sleeps w)) <= 300)%Q ->
  (latency env (requests w) + (10 + oversleep env (sleeps w))
   + latency env (S (requests w)) + (10 + oversleep env (S (sleeps w)))
   <= 300)%Q ->
  let run := wait_for_completion env (S (S (S fuel))) operation_id
               default_timeout default_poll_interval w in
  fst run = Ok (JStr "https://x/video.mp4")
  /\ (exists t1 t2,
        trace (snd run)
        = (trace w ++ [EvRequest (now w) (poll_request operation_id);
                       EvSleep 10;
                       EvRequest t1 (poll_request operation_id);
                       EvSleep 10;
                       EvRequest t2 (poll_request operation_id)])%list)
  /\ List.filter is_sleep (trace (snd run))
     = (List.filter is_sleep (trace w) ++ [EvSleep 10; EvSleep 10])%list
  /\ sleeps (snd run) = S (S (sleeps w))
  /\ requests (snd run) = S (S (S (requests w))).
Proof.
  intros A0 S0 A1 S1 A2 S2 U2 T1 T2. cbv zeta.
  assert (P0 : state_of f0 = JStr "PENDING") by (unfold state_of; now rewrite S0).
  assert (P1 : state_of f1 = JStr "PROCESSING") by (unfold state_of; now rewrite S1).
  assert (P2 : state_of f2 = JStr "COMPLETE") by (unfold state_of; now rewrite S2).
  eassert (E : wait_for_completion env (S (S (S fuel))) operation_id
                 default_timeout default_poll_interval w = _).
  { unfold wait_for_completion, default_timeout, default_poll_interval.
    unfold bind. unfold time_time.
    erewrite wait_loop_step; [| | exact A0].
    2:{ apply budget_exceeded_false. change (inject_Z 300) with 300%Q. lra. }
    cbv zeta. rewrite !P0.
    cbn [eq_str in_strs existsb String.eqb Ascii.eqb Bool.eqb orb andb].
    change (sleep_error 10) with (@None exn). cbv iota.
    erewrite wait_loop_step; [| | exact A1].
    2:{ apply budget_exceeded_false.
        cbn [now sleeps after_sleep after_log after_request].
        change (inject_Z 300) with 300%Q. change (inject_Z 10) with 10%Q. lra. }
    cbv zeta. rewrite !P1.
    cbn [eq_str in_strs existsb String.eqb Ascii.eqb Bool.eqb orb andb].
    change (sleep_error 10) with (@None exn). cbv iota.
    erewrite wait_loop_step; [| | exact A2].
    2:{ apply budget_exceeded_false.
        cbn [now sleeps requests after_sleep after_log after_request].
        change (inject_Z 300) with 300%Q. change (inject_Z 10) with 10%Q. lra. }
    cbv zeta. rewrite !P2.
    cbn [eq_str String.eqb Ascii.eqb Bool.eqb].
    unfold field. rewrite U2. cbn [truthy String.eqb negb].
    reflexivity. }
  rewrite E.
  cbn [fst snd trace sleeps requests after_sleep after_log after_request].
  rewrite <- !app_assoc. cbn [app].
  split; [reflexivity|]. split; [eauto|]. split; [|split; reflexivity].
  rewrite List.filter_app. reflexivity.
Qed.

End Polling.

Lemma answers_ok (body : json) :
  answers (Responded (Fixture.ok_response body)) body.
Proof.
  exists (Fixture.ok_response body).
  split; [reflexivity|]. split; [left; cbn; lia | reflexivity].
Defined.

Lemma complete_is_terminal_witness :
  fst (wait_loop Fixture.completes 1 Fixture.op123 300 10 0 Fixture.world0)
  = Ok (JStr "https://x/video.mp4").
Proof.
  refine (proj1 (proj2
    (complete_is_terminal Fixture.completes 0 Fixture.op123 300 10 0
       Fixture.world0 Fixture.complete_status
       eq_refl (answers_ok _) eq_refl)) "https://x/video.mp4" eq_refl _).
  discriminate.
Defined.

Lemma unknown_state_is_terminal_witness :
  fst (wait_loop Fixture.weird 1 Fixture.op123 300 10 0 Fixture.world0)
  = Raised (CaptionsAPIError "Unknown job state: WEIRD_STATE").
Proof.
  refine (proj1
    (unknown_state_is_terminal Fixture.weird 0 Fixture.op123 300 10 0 Fixture.world0
       [("state", JStr "WEIRD_STATE")] (JStr "WEIRD_STATE")
       eq_refl (answers_ok _) eq_refl _)).
  intros s H. cbn in H.
  destruct H as [<- | [<- | [<- | [<- | [<- | []]]]]]; discriminate.
Defined.

Lemma missing_state_is_terminal_witness :
  fst (wait_loop Fixture.stateless 1 Fixture.op123 300 10 0 Fixture.world0)
  = Raised (CaptionsAPIError "Unknown job state: unknown").
Proof.
  exact (proj1 (proj2
    (missing_state_is_terminal Fixture.stateless 0 Fixture.op123 300 10 0 Fixture.world0
       [("progress", JInt 40)] eq_refl (answers_ok _) eq_refl))).
Defined.

Lemma timeout_checked_before_each_poll_witness :
  wait_loop Fixture.pending 1 Fixture.op123 300 10 0 Fixture.late
  = (Raised (CaptionsAPIError "Job op123 timed out after 300 seconds"),
     Fixture.late)
  /\ fst (wait_for_completion Fixture.pending 2 Fixture.op123 1 10 Fixture.world0)
     = Raised (CaptionsAPIError "Job op123 timed out after 1 seconds").
Proof.
  destruct (timeout_checked_before_each_poll Fixture.pending Fixture.op123)
    as [_ [T [_ P]]].
  split.
  - apply (T 0%nat 300 10 0%Q Fixture.late). reflexivity.
  - apply (P 0%nat Fixture.world0 [("state", JStr "PENDING")]
             (answers_ok _) eq_refl); apply Qle_refl.
Defined.

Lemma three_polls_two_sleeps_witness :
  fst (wait_for_completion Fixture.three_polls 3 Fixture.op123
         default_timeout default_poll_interval Fixture.world0)
  = Ok (JStr "https://x/video.mp4")
  /\ List.filter is_sleep
       (trace (snd (wait_for_completion Fixture.three_polls 3 Fixture.op123
                      default_timeout default_poll_interval Fixture.world0)))
     = [EvSleep 10; EvSleep 10].
Proof.
  destruct (three_polls_two_sleeps Fixture.three_polls 0 Fixture.op123
              Fixture.world0
              [("state", JStr "PENDING")] [("state", JStr "PROCESSING")]
              Fixture.complete_status
              (answers_ok _) eq_refl (answers_ok _) eq_refl
              (answers_ok _) eq_refl eq_refl)
    as [R [_ [Sl _]]].
  - vm_compute. discriminate.
  - vm_compute. discriminate.
  - split; [exact R | exact Sl].
Defined.

(* ---------------------------------------------------------------------- *)
(** ** Computations that write no file                                     *)
(* ---------------------------------------------------------------------- *)

Section NoWrite.

Variable env : Env.

Lemma writes_snoc (w : World) (e : Event) (n : Q) (r s : nat) (l : list string) :
  is_write e = false ->
  writes (mkWorld n r s (trace w ++ [e]) l) = writes w.
Proof.
  intros H. unfold writes. cbn [trace].
  rewrite List.filter_app. cbn [List.filter]. rewrite H. apply app_nil_r.
Qed.

Lemma no_write_ret {A} (a : A) : no_write (ret a).
Proof. intros w. reflexivity. Qed.

Lemma no_write_raise {A} (e : exn) : no_write (@raise A e).
Proof. intros w. reflexivity. Qed.

Lemma no_write_out_of_fuel {A} : no_write (@out_of_fuel A).
Proof. intros w. reflexivity. Qed.

Lemma no_write_bind {A B} (m : M A) (k : A -> M B) :
  no_write m -> (forall a, no_write (k a)) -> no_write (bind m k).
Proof.
  intros Hm Hk w. unfold bind. specialize (Hm w).
  destruct (m w) as [[a | e |] w1]; cbn [snd] in *; try assumption.
  rewrite Hk. assumption.
Qed.

Lemma no_write_try {A} (body : M A) (handler : exn -> option (M A)) :
  no_write body ->
  (forall e h, handler e = Some h -> no_write h) ->
  no_write (try_except body handler).
Proof.
  intros Hb Hh w. unfold try_except. specialize (Hb w).
  destruct (body w) as [[a | e |] w1]; cbn [snd] in *; try assumption.
  destruct (handler e) as [h|] eqn:E; cbn [snd]; [|assumption].
  rewrite (Hh e h E). assumption.
Qed.

Lemma no_write_if {A} (b : bool) (m1 m2 : M A) :
  no_write m1 -> no_write m2 -> no_write (if b then m1 else m2).
Proof. destruct b; auto. Qed.

Lemma no_write_time_time : no_write time_time.
Proof. intros w. reflexivity. Qed.

Lemma no_write_datetime_now : no_write (datetime_now env).
Proof. intros w. reflexivity. Qed.

Lemma no_write_logger_info (msg : string) : no_write (logger_info msg).
Proof. intros w. reflexivity. Qed.

Lemma no_write_logger_error (msg : string) : no_write (logger_error msg).
Proof. intros w. reflexivity. Qed.

Lemma no_write_time_sleep (d : Z) : no_write (time_sleep env d).
Proof.
  intros w. unfold time_sleep. destruct (sleep_error d); [reflexivity|].
  apply writes_snoc. reflexivity.
Qed.

Lemma no_write_os_makedirs (path : string) : no_write (os_makedirs path).
Proof.
  intros w. unfold os_makedirs. destruct (String.eqb path ""); [reflexivity|].
  apply writes_snoc. reflexivity.
Qed.

Lemma no_write_session_request (req : Request) :
  no_write (session_request env req).
Proof.
  intros w. unfold session_request.
  destruct (http env (requests w) req); apply writes_snoc; reflexivity.
Qed.

Lemma no_write_raise_for_status (r : Response) : no_write (raise_for_status r).
Proof.
  unfold raise_for_status.
  repeat apply no_write_if; auto using @no_write_raise, @no_write_ret.
Qed.

Lemma no_write_response_json (r : Response) : no_write (response_json r).
Proof.
  unfold response_json.
  destruct (json_body r); auto using @no_write_raise, @no_write_ret.
Qed.

Lemma no_write_dict_get (d : json) (k : string) (default : json) :
  no_write (dict_get d k default).
Proof.
  destruct d; cbn [dict_get]; auto using @no_write_raise, @no_write_ret.
Qed.

Create HintDb nowrite.

#[local] Hint Resolve
  @no_write_ret @no_write_raise @no_write_out_of_fuel
  no_write_time_time no_write_datetime_now no_write_logger_info
  no_write_logger_error no_write_time_sleep no_write_os_makedirs
  no_write_session_request no_write_raise_for_status no_write_response_json
  no_write_dict_get : nowrite.

Ltac nowrite :=
  repeat first
    [ solve [auto with nowrite]
    | apply no_write_bind; [|intros ?]
    | apply no_write_if ].

Lemma no_write_make_request (method endpoint : string) (payload : option json) :
  no_write (_make_request env method endpoint payload).
Proof.
  unfold _make_request. apply no_write_try.
  - nowrite.
  - intros e h H. destruct e; cbn in H; try discriminate;
      injection H as <-; nowrite.
    apply no_write_try; [nowrite|].
    intros e' h' H'. injection H' as <-. nowrite.
Qed.

#[local] Hint Resolve no_write_make_request : nowrite.

Lemma no_write_create_ai_ad (script creator_name : string)
    (media_urls : option (list string)) (resolution : string)
    (webhook_id : option string) :
  no_write (create_ai_ad env script creator_name media_urls resolution webhook_id).
Proof. unfold create_ai_ad. nowrite. Qed.

Lemma no_write_get_job_status (operation_id : json) :
  no_write (get_job_status env operation_id).
Proof. unfold get_job_status. nowrite. Qed.

#[local] Hint Resolve no_write_create_ai_ad no_write_get_job_status : nowrite.

Lemma no_write_wait_loop (operation_id : json) (timeout poll_interval : Z)
    (start_time : Q) (fuel : nat) :
  no_write (wait_loop env fuel operation_id timeout poll_interval start_time).
Proof.
  induction fuel as [|fuel IH]; cbn [wait_loop]; nowrite.
Qed.

Lemma no_write_wait_for_completion (fuel : nat) (operation_id : json)
    (timeout poll_interval : Z) :
  no_write (wait_for_completion env fuel operation_id timeout poll_interval).
Proof.
  unfold wait_for_completion. nowrite. apply no_write_wait_loop.
Qed.

Lemma no_write_validate_inputs (script creator_name resolution : string) :
  no_write (_validate_inputs script creator_name resolution).
Proof. unfold _validate_inputs. nowrite. Qed.

Lemma no_write_generate_filename (script creator_name resolution : string) :
  no_write (_generate_filename env script creator_name resolution).
Proof. unfold _generate_filename. nowrite. Qed.

End NoWrite.

(* ---------------------------------------------------------------------- *)
(** ** The workflow: generate_ad_video                                     *)
(* ---------------------------------------------------------------------- *)

Section Generation.

Variable env : Env.

Lemma validate_inputs_ok (script creator_name resolution : string) (w : World) :
  fst (_validate_inputs script creator_name resolution w) = Ok tt ->
  _validate_inputs script creator_name resolution w = (Ok tt, w).
Proof.
  intros H. rewrite validate_inputs_cases in *.
  repeat match goal with
         | H : context [if ?b then _ else _] |- _ => destruct b
         end; cbn [fst] in H; try discriminate; reflexivity.
Qed.

Lemma validate_inputs_world (script creator_name resolution : string) (w : World) :
  snd (_validate_inputs script creator_name resolution w) = w.
Proof.
  rewrite validate_inputs_cases.
  repeat match goal with
         | |- context [if ?b then _ else _] => destruct b
         end; reflexivity.
Qed.

(** A file is written only after both the submission and the wait have
    returned. *)
Lemma write_needs_success (fuel : nat) (script creator_name : string)
    (media_urls : option (list string)) (resolution : string)
    (webhook_id : option string) (output_dir : string)
    (filename : option string) (w : World) :
  writes (snd (generate_ad_video env fuel script creator_name media_urls
                 resolution webhook_id output_dir filename w))
    <> writes w ->
  exists operation_id w2 video_url w3,
    create_ai_ad env script creator_name media_urls resolution webhook_id
      (after_makedirs output_dir w)
      = (Ok operation_id, w2)
    /\ wait_for_completion env fuel operation_id default_timeout
         default_poll_interval w2
       = (Ok video_url, w3).
Proof.
  unfold generate_ad_video.
  unfold bind at 1.
  pose proof (validate_inputs_world script creator_name resolution w) as N1.
  destruct (_validate_inputs script creator_name resolution w) as [[[] | e |] w1];
    cbn [snd] in N1; subst w1; try (intros H; cbn [snd] in H; congruence).
  unfold bind at 1. unfold os_makedirs.
  destruct (String.eqb output_dir "");
    [intros H; cbn [snd raise] in H; congruence|].
  set (w1 := after_makedirs output_dir w).
  assert (W1 : writes w1 = writes w) by (apply writes_snoc; reflexivity).
  unfold bind at 1.
  assert (F : exists name,
             (if falsy_str filename
              then _generate_filename env script creator_name resolution
              else ret match filename with Some f => f | None => "" end) w1
             = (Ok name, w1)).
  { destruct (falsy_str filename); eexists; reflexivity. }
  destruct F as [name F]. rewrite F.
  unfold try_except. unfold bind at 1.
  pose proof (no_write_create_ai_ad env script creator_name media_urls
                resolution webhook_id w1) as N4.
  destruct (create_ai_ad env script creator_name media_urls resolution
              webhook_id w1) as [[operation_id | e |] w4] eqn:EC;
    cbn [snd] in N4.
  - unfold bind at 1.
    pose proof (no_write_wait_for_completion env fuel operation_id
                  default_timeout default_poll_interval w4) as N5.
    destruct (wait_for_completion env fuel operation_id default_timeout
                default_poll_interval w4) as [[video_url | e |] w5] eqn:EW;
      cbn [snd] in N5.
    + intros _. exists operation_id, w4, video_url, w5.
      split; [reflexivity | exact EW].
    + destruct e; intros H; exfalso; apply H; clear H;
        unfold bind, logger_error, logger_info, raise, after_log, writes in *;
        cbn [snd trace] in *; congruence.
    + intros H; exfalso; apply H; cbn [snd]; congruence.
  - destruct e; intros H; exfalso; apply H; clear H;
      unfold bind, logger_error, logger_info, raise, after_log, writes in *;
      cbn [snd trace] in *; congruence.
  - intros H; exfalso; apply H; cbn [snd]; congruence.
Qed.

End Generation.

(* ---------------------------------------------------------------------- *)
(** ** The model at work                                                   *)
(* ---------------------------------------------------------------------- *)

Example lower_FHD : Py.lower "FHD" = "fhd".
Proof. reflexivity. Qed.

Example strip_spaces : Py.strip "  hello world " = "hello world".
Proof. reflexivity. Qed.

Example str_of_Z_samples :
  Py.str_of_Z 300 = "300" /\ Py.str_of_Z (-1) = "-1" /\ Py.str_of_Z 0 = "0".
Proof. repeat split; reflexivity. Qed.

Example dirname_sample :
  PosixPath.dirname "./generated_videos/a.mp4" = "./generated_videos"
  /\ PosixPath.join "./generated_videos" "a.mp4" = "./generated_videos/a.mp4".
Proof. split; reflexivity. Qed.

Example validate_short_script :
  fst (_validate_inputs "   too short " "Jane" "fhd" Fixture.world0)
  = Raised (CaptionsAPIError "Script must be at least 10 characters long").
Proof. reflexivity. Qed.

Example validate_upper_case_resolution :
  fst (_validate_inputs "Buy it today!" "Jane" "FHD" Fixture.world0) = Ok tt.
Proof. reflexivity. Qed.

(** A whole successful run: one submission, one poll, one download, and
    the video written under the generated name. *)
Example successful_run :
  let run := generate_ad_video Fixture.succeeding 1 "Buy it today!" "Jane"
               None "fhd" None "./generated_videos" None Fixture.world0 in
  fst run = Ok "./generated_videos/ai_ad_Jane_fhd_20240102_030405.mp4"
  /\ writes (snd run)
     = [EvWriteFile "./generated_videos/ai_ad_Jane_fhd_20240102_030405.mp4"
                    "VIDEO"]
  /\ requests (snd run) = 3%nat.
Proof. vm_compute. repeat split; reflexivity. Qed.

(** Polling forever PENDING with the default budget: 31 polls, then the
    timeout. *)
Example pending_forever :
  let run := wait_for_completion Fixture.pending 40 Fixture.op123
               default_timeout default_poll_interval Fixture.world0 in
  fst run = Raised (CaptionsAPIError "Job op123 timed out after 300 seconds")
  /\ requests (snd run) = 31%nat.
Proof. vm_compute. repeat split; reflexivity. Qed.

(* ====================================================================== *)
(** * Further properties of the client                                     *)
(* ====================================================================== *)

(* ---------------------------------------------------------------------- *)
(** ** What _make_request returns and raises                               *)
(* ---------------------------------------------------------------------- *)

Section TransportOutcome.

Variable env : Env.

Lemma passes_raise_for_status (r : Response) (w : World) :
  status_code r < 400 \/ 600 <= status_code r ->
  raise_for_status r w = (Ok tt, w).
Proof.
  intros H. unfold raise_for_status.
  replace ((400 <=? status_code r) && (status_code r <? 500)) with false
    by (symmetry; apply andb_false_iff; rewrite Z.leb_gt, Z.ltb_ge; lia).
  replace ((500 <=? status_code r) && (status_code r <? 600)) with false
    by (symmetry; apply andb_false_iff; rewrite Z.leb_gt, Z.ltb_ge; lia).
  reflexivity.
Qed.

Lemma fails_raise_for_status (r : Response) (w : World) :
  400 <= status_code r < 600 ->
  exists msg, raise_for_status r w = (Raised (HTTPError msg r), w).
Proof.
  intros H. unfold raise_for_status.
  destruct (Z.ltb_spec (status_code r) 500).
  - replace (400 <=? status_code r) with true
      by (symmetry; apply Z.leb_le; lia).
    eexists. reflexivity.
  - replace (500 <=? status_code r) with true
      by (symmetry; apply Z.leb_le; lia).
    replace (status_code r <? 600) with true
      by (symmetry; apply Z.ltb_lt; lia).
    rewrite andb_false_r. eexists. reflexivity.
Qed.

(** The three ways a call can go, read off the answer of the server. *)
Lemma make_request_cases (method endpoint : string) (payload : option json)
    (w : World) :
  let req := mkRequest method (urljoin BASE_URL endpoint) payload false in
  let run := _make_request env method endpoint payload w in
  match http env (requests w) req with
  | ConnectionFailed detail =>
      fst run = Raised (CaptionsAPIError ("API request failed: " ++ detail))
  | Responded r =>
      if (400 <=? status_code r) && (status_code r <? 600) then
        exists msg, fst run = Raised (CaptionsAPIError msg)
      else
        match json_body r with
        | Decoded v => fst run = Ok v
        | NotJson why =>
            fst run = Raised (CaptionsAPIError ("API request failed: " ++ why))
        | Crashed c => fst run = Raised (crash_exn c)
        end
  end.
Proof.
  cbv zeta.
  unfold _make_request, try_except, bind, session_request.
  destruct (http env (requests w) _) as [detail | r]; [reflexivity|].
  destruct ((400 <=? status_code r) && (status_code r <? 600)) eqn:B.
  - apply andb_true_iff in B as [B1 B2].
    apply Z.leb_le in B1. apply Z.ltb_lt in B2.
    destruct (fails_raise_for_status r
                (after_request env
                   (mkRequest method (urljoin BASE_URL endpoint) payload false) w)
                (conj B1 B2)) as [msg F].
    rewrite F. cbv iota beta.
    destruct (status_code r =? 401); [eexists; reflexivity|].
    destruct (status_code r =? 429); [eexists; reflexivity|].
    destruct (status_code r =? 402); [eexists; reflexivity|].
    destruct (status_code r =? 400); [|eexists; reflexivity].
    unfold try_except, bind, response_json.
    destruct (json_body r) as [? | ? | [? | ?]]; eexists; reflexivity.
  - assert (P : status_code r < 400 \/ 600 <= status_code r).
    { apply andb_false_iff in B. rewrite Z.leb_gt, Z.ltb_ge in B. lia. }
    rewrite (passes_raise_for_status r _ P).
    unfold response_json.
    destruct (json_body r) as [? | ? | [? | ?]]; reflexivity.
Qed.

(** X1. _make_request returns a value exactly when the server answered
    with a status outside 400..599 and a body that decodes, and the value
    is that decoded body. *)
Theorem make_request_returns_iff (method endpoint : string)
    (payload : option json) (w : World) (v : json) :
  fst (_make_request env method endpoint payload w) = Ok v
  <-> answers (http env (requests w)
                 (mkRequest method (urljoin BASE_URL endpoint) payload false)) v.
Proof.
  split.
  - intros H.
    pose proof (make_request_cases method endpoint payload w) as C.
    cbv zeta in C.
    destruct (http env (requests w) _) as [detail | r]; [congruence|].
    destruct ((400 <=? status_code r) && (status_code r <? 600)) eqn:B.
    + destruct C as [msg C]. congruence.
    + exists r. split; [reflexivity|]. split.
      * apply andb_false_iff in B. rewrite Z.leb_gt, Z.ltb_ge in B. lia.
      * destruct (json_body r) as [v' | why | [m | m]];
          cbn [crash_exn] in C; congruence.
  - intros A. now rewrite (make_request_answers env _ _ _ _ _ A).
Qed.

(** X2. _make_request issues exactly one request and turns every failure
    into a CaptionsAPIError but one: when the answer passes
    raise_for_status and the JSON decoder itself gives up (RecursionError
    on deep nesting, a plain ValueError on an over-long integer), that
    exception leaves _make_request as it is.  An answer whose status
    passes but whose body is not JSON is reported as
    "API request failed: " with the decoding error. *)
Theorem make_request_uniform_errors (method endpoint : string)
    (payload : option json) (w : World) :
  let req := mkRequest method (urljoin BASE_URL endpoint) payload false in
  let run := _make_request env method endpoint payload w in
  snd run = after_request env req w
  /\ match fst run with
     | Ok _ => True
     | Raised (CaptionsAPIError _) => True
     | Raised e =>
         exists r c,
           http env (requests w) req = Responded r
           /\ (status_code r < 400 \/ 600 <= status_code r)
           /\ json_body r = Crashed c
           /\ e = crash_exn c
     | OutOfFuel => False
     end
  /\ (forall r why,
        http env (requests w) req = Responded r ->
        status_code r < 400 \/ 600 <= status_code r ->
        json_body r = NotJson why ->
        fst run = Raised (CaptionsAPIError ("API request failed: " ++ why)))
  /\ (forall r c,
        http env (requests w) req = Responded r ->
        status_code r < 400 \/ 600 <= status_code r ->
        json_body r = Crashed c ->
        fst run = Raised (crash_exn c)).
Proof.
  cbv zeta.
  pose proof (make_request_cases method endpoint payload w) as C.
  cbv zeta in C.
  split; [apply make_request_world|]. split; [|split].
  - destruct (http env (requests w) _) as [detail | r] eqn:E.
    + rewrite C. exact I.
    + destruct ((400 <=? status_code r) && (status_code r <? 600)) eqn:B.
      * destruct C as [msg C]. rewrite C. exact I.
      * assert (P : status_code r < 400 \/ 600 <= status_code r).
        { apply andb_false_iff in B. rewrite Z.leb_gt, Z.ltb_ge in B. lia. }
        destruct (json_body r) as [v | why | c] eqn:J; rewrite C;
          try exact I.
        destruct c; cbn [crash_exn]; eexists r, _;
          (split; [reflexivity|]); (split; [exact P|]);
          (split; [exact J | reflexivity]).
  - intros r why E P J. rewrite E in C.
    replace ((400 <=? status_code r) && (status_code r <? 600)) with false in C
      by (symmetry; apply andb_false_iff; rewrite Z.leb_gt, Z.ltb_ge; lia).
    rewrite J in C. exact C.
  - intros r c E P J. rewrite E in C.
    replace ((400 <=? status_code r) && (status_code r <? 600)) with false in C
      by (symmetry; apply andb_false_iff; rewrite Z.leb_gt, Z.ltb_ge; lia).
    rewrite J in C. exact C.
Qed.

End TransportOutcome.

Lemma make_request_uniform_errors_witness :
  fst (_make_request Fixture.web_page "POST" "/api/ads/poll" None Fixture.world0)
  = Raised (CaptionsAPIError
              "API request failed: Expecting value: line 1 column 1 (char 0)").
Proof.
  refine (proj1 (proj2 (proj2 (make_request_uniform_errors Fixture.web_page
                                 "POST" "/api/ads/poll"
                                 None Fixture.world0))) _ _ eq_refl _ eq_refl).
  left. cbn. lia.
Defined.

(* ---------------------------------------------------------------------- *)
(** ** More on create_ai_ad                                                *)
(* ---------------------------------------------------------------------- *)

Section SubmissionOutcome.

Variable env : Env.

Lemma create_ai_ad_on_answer (script creator_name : string)
    (media_urls : option (list string)) (resolution : string)
    (webhook_id : option string) (w : World) (body : json) :
  answers (http env (requests w)
             (api_request "/api/ads/submit"
                (submit_payload script creator_name media_urls resolution
                   webhook_id)))
          body ->
  fst (create_ai_ad env script creator_name media_urls resolution webhook_id w)
  = match body with
    | JObj fields =>
        if truthy (field "operationId" fields)
        then Ok (field "operationId" fields)
        else Raised (CaptionsAPIError "No operation ID received from API")
    | _ => Raised (AttributeError
                     ("'" ++ type_name body ++ "' object has no attribute 'get'"))
    end.
Proof.
  intros Ha.
  unfold create_ai_ad. unfold bind, logger_info.
  erewrite make_request_answers by exact Ha.
  destruct body; try reflexivity.
  cbn [dict_get ret]. unfold field.
  destruct (truthy _); reflexivity.
Qed.

(** X3. When the submission is answered with a dict, create_ai_ad returns
    its "operationId" if that counts as true, and raises
    "No operation ID received from API" if the key is missing or its
    value is null, empty or zero; either way one request was sent. *)
Theorem create_ai_ad_needs_operation_id (script creator_name : string)
    (media_urls : option (list string)) (resolution : string)
    (webhook_id : option string) (w : World) (fields : list (string * json)) :
  answers (http env (requests w)
             (api_request "/api/ads/submit"
                (submit_payload script creator_name media_urls resolution
                   webhook_id)))
          (JObj fields) ->
  let run := create_ai_ad env script creator_name media_urls resolution
               webhook_id w in
  (truthy (field "operationId" fields) = true ->
   fst run = Ok (field "operationId" fields))
  /\ (truthy (field "operationId" fields) = false ->
      fst run = Raised (CaptionsAPIError "No operation ID received from API"))
  /\ (lookup "operationId" fields = None ->
      fst run = Raised (CaptionsAPIError "No operation ID received from API"))
  /\ trace (snd run)
     = (trace w ++ [EvRequest (now w)
                      (api_request "/api/ads/submit"
                         (submit_payload script creator_name media_urls
                            resolution webhook_id))])%list.
Proof.
  intros Ha. cbv zeta.
  rewrite (create_ai_ad_on_answer _ _ _ _ _ _ _ Ha).
  split; [|split; [|split]].
  - intros T. now rewrite T.
  - intros T. now rewrite T.
  - intros L. unfold field. now rewrite L.
  - apply create_ai_ad_trace.
Qed.

(** X5. The payload of a submission carries script and creator name as
    given (not stripped), holds the keys script, creatorName, mediaUrls,
    resolution in that order, and has a webhookId entry exactly when a
    non-empty webhook id was passed. *)
Theorem submit_payload_fields (script creator_name : string)
    (media_urls : option (list string)) (resolution : string)
    (webhook_id : option string) :
  exists fields,
    submit_payload script creator_name media_urls resolution webhook_id
      = JObj fields
    /\ lookup "script" fields = Some (JStr script)
    /\ lookup "creatorName" fields = Some (JStr creator_name)
    /\ lookup "webhookId" fields
       = (if falsy_str webhook_id then None else option_map JStr webhook_id)
    /\ map fst fields
       = (["script"; "creatorName"; "mediaUrls"; "resolution"]
            ++ (if falsy_str webhook_id then [] else ["webhookId"]))%list.
Proof.
  unfold submit_payload. eexists. split; [reflexivity|].
  destruct (falsy_str webhook_id) eqn:F; [repeat split; reflexivity|].
  destruct webhook_id; [repeat split; reflexivity | discriminate].
Qed.

End SubmissionOutcome.

Lemma create_ai_ad_needs_operation_id_witness :
  fst (create_ai_ad Fixture.stateless "Buy it today!" "Jane" None "fhd" None
         Fixture.world0)
  = Raised (CaptionsAPIError "No operation ID received from API").
Proof.
  refine (proj1 (proj2 (proj2
    (create_ai_ad_needs_operation_id Fixture.stateless "Buy it today!" "Jane"
       None "fhd" None Fixture.world0 [("progress", JInt 40)]
       (answers_ok _)))) eq_refl).
Defined.

(* ---------------------------------------------------------------------- *)
(** ** The polling loop, run by run                                        *)
(* ---------------------------------------------------------------------- *)

Section LoopRuns.

Variable env : Env.
Variable operation_id : json.
Variables timeout poll_interval : Z.
Variable start_time : Q.

Lemma get_job_status_outcome (w : World) :
  fst (get_job_status env operation_id w) <> OutOfFuel.
Proof.
  unfold get_job_status.
  pose proof (make_request_cases env "POST" "/api/ads/poll"
                (Some (JObj [("operationId", operation_id)])) w) as C.
  cbv zeta in C.
  destruct (http env (requests w) _) as [detail | r].
  - rewrite C. discriminate.
  - destruct ((400 <=? status_code r) && (status_code r <? 600)).
    + destruct C as [msg C]. rewrite C. discriminate.
    + destruct (json_body r); rewrite C; discriminate.
Qed.

(** Every run of wait_loop is a run of the relation. *)
Lemma wait_loop_run (fuel : nat) :
  forall w : World,
    loop_run env operation_id timeout poll_interval start_time fuel w
      (fst (wait_loop env fuel operation_id timeout poll_interval start_time w))
      (snd (wait_loop env fuel operation_id timeout poll_interval start_time w)).
Proof.
  induction fuel as [|fuel IH]; intros w.
  { apply run_out_of_fuel. }
  destruct (wait_loop env (S fuel) operation_id timeout poll_interval
              start_time w) as [r w'] eqn:E.
  cbn [fst snd]. cbn [wait_loop] in E.
  unfold bind at 1 in E. unfold time_time at 1 in E.
  destruct (budget_exceeded start_time (now w) timeout) eqn:B.
  { injection E as <- <-. apply run_timeout. exact B. }
  unfold bind at 1 in E.
  pose proof (get_job_status_world env operation_id w) as HW.
  pose proof (get_job_status_outcome w) as HO.
  fold (polled env operation_id w) in HW.
  destruct (get_job_status env operation_id w) as [[status | e |] w1] eqn:G;
    cbn [fst snd] in HW, HO; subst w1.
  - destruct status as [| b | z | s | items | fields];
      try (injection E as <- <-;
           apply (run_not_dict _ _ _ _ _ _ _ _ B G); intros ?; discriminate).
    cbn [dict_get] in E. unfold bind, ret, logger_info in E.
    change (match lookup "state" fields with
            | Some v => v
            | None => JStr "unknown"
            end) with (state_of fields) in E.
    change (match lookup "url" fields with
            | Some v => v
            | None => JNull
            end) with (field "url" fields) in E.
    fold (logged env operation_id fields w) in E.
    destruct (eq_str (state_of fields) "COMPLETE") eqn:C.
    { destruct (truthy (field "url" fields)) eqn:T; injection E as <- <-.
      - apply run_complete; assumption.
      - apply run_no_url; assumption. }
    destruct (eq_str (state_of fields) "FAILED") eqn:F.
    { injection E as <- <-. apply run_failed; assumption. }
    destruct (in_strs (state_of fields) ["PENDING"; "PROCESSING"; "QUEUED"]) eqn:N.
    + assert (NT : nonterminal fields = true)
        by (unfold nonterminal; now rewrite C, F, N).
      unfold time_sleep in E.
      destruct (sleep_error poll_interval) as [e|] eqn:L.
      * injection E as <- <-. apply run_sleep_raised; assumption.
      * apply (run_again _ _ _ _ _ _ _ fields r w' B G NT L).
        specialize (IH (after_sleep env poll_interval
                          (logged env operation_id fields w))).
        rewrite E in IH. exact IH.
    + injection E as <- <-. apply run_unknown; try assumption.
      unfold unknown_state. now rewrite C, F, N.
  - injection E as <- <-. apply run_poll_raised; assumption.
  - now destruct HO.
Qed.

End LoopRuns.

(* ---------------------------------------------------------------------- *)
(** ** Invariants of the polling loop                                      *)
(* ---------------------------------------------------------------------- *)

Section LoopInvariants.

Variable env : Env.
Variable operation_id : json.
Variables timeout poll_interval : Z.
Variable start_time : Q.

Let run := loop_run env operation_id timeout poll_interval start_time.

Lemma loop_run_events (fuel : nat) (w : World) (r : Result json) (w' : World) :
  run fuel w r w' ->
  exists evs,
    trace w' = (trace w ++ evs)%list
    /\ Forall (poll_or_sleep operation_id poll_interval) evs.
Proof.
  induction 1 as [ w | fuel w B | fuel w e B G | fuel w status B G N
                 | fuel w fields B G C T | fuel w fields B G C T
                 | fuel w fields B G C F | fuel w fields B G U
                 | fuel w fields e B G N L | fuel w fields r w' B G N L R IH ];
    try (exists []; split; [now rewrite app_nil_r | constructor]);
    try (exists [EvRequest (now w) (poll_request operation_id)];
         split; [reflexivity | repeat constructor]).
  destruct IH as [evs [E F]].
  exists (EvRequest (now w) (poll_request operation_id)
            :: EvSleep poll_interval :: evs).
  split.
  - rewrite E. cbn [trace after_sleep logged after_log polled after_request].
    now rewrite <- !app_assoc.
  - repeat constructor. exact F.
Qed.

Lemma loop_run_truthy (fuel : nat) (w : World) (r : Result json) (w' : World) :
  run fuel w r w' -> forall v, r = Ok v -> truthy v = true.
Proof.
  induction 1; intros v E; try discriminate; auto.
  injection E as <-. assumption.
Qed.

Section Bounded.

Hypothesis latency_nonneg : forall k, (0 <= latency env k)%Q.
Hypothesis oversleep_nonneg : forall k, (0 <= oversleep env k)%Q.

Lemma inject_succ_mul (m : nat) :
  (inject_Z (Z.of_nat (S m) * poll_interval)
   == inject_Z (Z.of_nat m * poll_interval) + inject_Z poll_interval)%Q.
Proof.
  rewrite Nat2Z.inj_succ, Z.mul_succ_l, inject_Z_plus. reflexivity.
Qed.

(** With [n] poll intervals' worth of budget left, the loop ends within
    [n] polls. *)
Lemma loop_run_bounded (fuel : nat) (w : World) (r : Result json) (w' : World) :
  run fuel w r w' ->
  forall n : nat,
    (inject_Z timeout - (now w - start_time)
     < inject_Z (Z.of_nat n * poll_interval))%Q ->
    (n < fuel)%nat ->
    r <> OutOfFuel /\ (requests w' <= requests w + n)%nat.
Proof.
  assert (Pos : forall (w0 : World) (n : nat),
             budget_exceeded start_time (now w0) timeout = false ->
             (inject_Z timeout - (now w0 - start_time)
              < inject_Z (Z.of_nat n * poll_interval))%Q ->
             (1 <= n)%nat).
  { intros w0 [|n] B H; [|lia].
    apply budget_exceeded_false in B.
    change (inject_Z (Z.of_nat 0 * poll_interval)) with 0%Q in H. lra. }
  induction 1 as [ w | fuel w B | fuel w e B G | fuel w status B G N
                 | fuel w fields B G C T | fuel w fields B G C T
                 | fuel w fields B G C F | fuel w fields B G U
                 | fuel w fields e B G N L | fuel w fields r w' B G N L R IH ];
    intros n H Hn.
  - lia.
  - split; [discriminate | lia].
  - pose proof (Pos w n B H). split; [discriminate | cbn; lia].
  - pose proof (Pos w n B H). split; [discriminate | cbn; lia].
  - pose proof (Pos w n B H). split; [discriminate | cbn; lia].
  - pose proof (Pos w n B H). split; [discriminate | cbn; lia].
  - pose proof (Pos w n B H). split; [discriminate | cbn; lia].
  - pose proof (Pos w n B H). split; [discriminate | cbn; lia].
  - pose proof (Pos w n B H). split; [discriminate | cbn; lia].
  - pose proof (Pos w n B H) as P.
    destruct n as [|m]; [lia|].
    destruct (IH m) as [NF Rq].
    + rewrite inject_succ_mul in H.
      cbn [now sleeps after_sleep logged after_log polled after_request].
      pose proof (latency_nonneg (requests w)).
      pose proof (oversleep_nonneg (sleeps w)).
      lra.
    + lia.
    + split; [exact NF|].
      cbn [requests after_sleep logged after_log polled after_request] in Rq.
      lia.
Qed.

End Bounded.

End LoopInvariants.

Section PollingOutcome.

Variable env : Env.


(** X6. On a status whose state is "FAILED" the loop ends at once with
    "Job <id> failed: " followed by the status's error, or by
    "Unknown error" when the status has no "error" key; one request, no
    sleep, no further poll. *)
Theorem failed_is_terminal (fuel : nat) (operation_id : json)
    (timeout poll_interval : Z) (start_time : Q) (w : World)
    (fields : list (string * json)) :
  budget_exceeded start_time (now w) timeout = false ->
  answers (http env (requests w) (poll_request operation_id)) (JObj fields) ->
  lookup "state" fields = Some (JStr "FAILED") ->
  let run := wait_loop env (S fuel) operation_id timeout poll_interval
               start_time w in
  (forall detail, lookup "error" fields = Some detail ->
     fst run = Raised (CaptionsAPIError
                         ("Job " ++ py_str operation_id ++ " failed: "
                            ++ py_str detail)))
  /\ (lookup "error" fields = None ->
      fst run = Raised (CaptionsAPIError
                          ("Job " ++ py_str operation_id
                             ++ " failed: Unknown error")))
  /\ one_poll_no_sleep operation_id w (snd run).
Proof.
  intros Hb Ha Hs. cbv zeta.
  rewrite (wait_loop_step _ _ _ _ _ _ _ _ Hb Ha). cbv zeta.
  unfold state_of. rewrite Hs. cbn [eq_str String.eqb Ascii.eqb Bool.eqb].
  split; [|split].
  - intros detail Hd. now rewrite Hd.
  - intros Hd. now rewrite Hd.
  - repeat split; reflexivity.
Qed.



(** X8. An error of the poll itself ends the wait: whatever
    get_job_status raises is raised by the loop as it is, after that one
    request and without sleeping or polling again; so a transport failure
    during a poll surfaces as "API request failed: " with its detail. *)
Theorem poll_error_is_terminal (fuel : nat) (operation_id : json)
    (timeout poll_interval : Z) (start_time : Q) (w : World) :
  budget_exceeded start_time (now w) timeout = false ->
  let run := wait_loop env (S fuel) operation_id timeout poll_interval
               start_time w in
  (forall e, fst (get_job_status env operation_id w) = Raised e ->
     run = (Raised e, polled env operation_id w))
  /\ (forall detail,
        http env (requests w) (poll_request operation_id)
          = ConnectionFailed detail ->
        run = (Raised (CaptionsAPIError ("API request failed: " ++ detail)),
               polled env operation_id w)).
Proof.
  intros Hb. cbv zeta.
  assert (G : forall e, fst (get_job_status env operation_id w) = Raised e ->
              wait_loop env (S fuel) operation_id timeout poll_interval
                start_time w
              = (Raised e, polled env operation_id w)).
  { intros e He. cbn [wait_loop]. unfold bind at 1. unfold time_time at 1.
    rewrite Hb. unfold bind at 1.
    pose proof (get_job_status_world env operation_id w) as HW.
    destruct (get_job_status env operation_id w) as [r w1].
    cbn [fst snd] in *. subst. reflexivity. }
  split; [exact G|].
  intros detail Hd. apply G.
  unfold get_job_status.
  pose proof (make_request_cases env "POST" "/api/ads/poll"
                (Some (JObj [("operationId", operation_id)])) w) as C.
  cbv zeta in C. unfold poll_request, api_request in Hd.
  rewrite Hd in C. exact C.
Qed.

(** X9. With a positive poll interval, and requests and sleeps that take
    no negative time, the wait always comes to an end: given more than
    timeout // poll_interval + 1 turns it never runs out of them, and it
    issues at most timeout // poll_interval + 1 polls. *)
Theorem wait_is_bounded (fuel : nat) (operation_id : json)
    (timeout poll_interval : Z) (w : World) :
  (forall k, (0 <= latency env k)%Q) ->
  (forall k, (0 <= oversleep env k)%Q) ->
  0 <= timeout ->
  1 <= poll_interval ->
  (Z.to_nat (timeout / poll_interval) + 1 < fuel)%nat ->
  let run := wait_for_completion env fuel operation_id timeout poll_interval w in
  fst run <> OutOfFuel
  /\ (requests (snd run)
      <= requests w + (Z.to_nat (timeout / poll_interval) + 1))%nat.
Proof.
  intros Hl Ho Ht Hi Hf. cbv zeta.
  change (wait_for_completion env fuel operation_id timeout poll_interval w)
    with (wait_loop env fuel operation_id timeout poll_interval (now w) w).
  apply (loop_run_bounded env operation_id timeout poll_interval (now w)
           Hl Ho fuel w _ _ (wait_loop_run _ _ _ _ _ fuel w)); [|exact Hf].
  assert (HZ : timeout < Z.of_nat (Z.to_nat (timeout / poll_interval) + 1)
                         * poll_interval).
  { rewrite Nat2Z.inj_add, Z2Nat.id by (apply Z.div_pos; lia).
    change (Z.of_nat 1) with 1.
    pose proof (Z.mul_succ_div_gt timeout poll_interval ltac:(lia)). lia. }
  rewrite Zlt_Qlt in HZ. lra.
Qed.

(** X10. A negative timeout ends the wait before the first poll: the
    timeout error is raised and no request is issued.  The test is
    strict: a turn of the loop that finds no more than timeout seconds
    elapsed, be it exactly timeout seconds, sends its poll before
    anything else. *)
Theorem timeout_sign (fuel : nat) (operation_id : json)
    (timeout poll_interval : Z) (w : World) :
  (timeout < 0 ->
   wait_for_completion env (S fuel) operation_id timeout poll_interval w
   = (Raised (CaptionsAPIError
                ("Job " ++ py_str operation_id ++ " timed out after "
                   ++ Py.str_of_Z timeout ++ " seconds")), w))
  /\ (forall start_time : Q,
        (now w - start_time <= inject_Z timeout)%Q ->
        exists evs,
          trace (snd (wait_loop env (S fuel) operation_id timeout
                        poll_interval start_time w))
          = (trace w ++ EvRequest (now w) (poll_request operation_id)
               :: evs)%list).
Proof.
  split.
  - intros H.
    change (wait_for_completion env (S fuel) operation_id timeout
              poll_interval w)
      with (wait_loop env (S fuel) operation_id timeout poll_interval
              (now w) w).
    apply timeout_turn. rewrite Zlt_Qlt in H.
    change (inject_Z 0) with 0%Q in H. lra.
  - intros start_time H.
    apply budget_exceeded_false in H.
    pose proof (wait_loop_run env operation_id timeout poll_interval
                  start_time (S fuel) w) as R.
    destruct (wait_loop env (S fuel) operation_id timeout poll_interval
                start_time w) as [r w'].
    cbn [fst snd] in *.
    inversion R; subst; try congruence;
      try (exists []; reflexivity).
    match goal with
    | R' : loop_run _ _ _ _ _ _ _ _ _ |- _ =>
        destruct (loop_run_events _ _ _ _ _ _ _ _ _ R') as [evs [E _]]
    end.
    exists (EvSleep poll_interval :: evs).
    rewrite E. cbn [trace after_sleep logged after_log polled after_request].
    now rewrite <- !app_assoc.
Qed.

(** X11. wait_for_completion never returns None, an empty string or any
    other value that counts as false: a returned url always counts as
    true. *)
Theorem wait_returns_truthy (fuel : nat) (operation_id : json)
    (timeout poll_interval : Z) (w : World) (v : json) :
  fst (wait_for_completion env fuel operation_id timeout poll_interval w) = Ok v ->
  truthy v = true.
Proof.
  change (wait_for_completion env fuel operation_id timeout poll_interval w)
    with (wait_loop env fuel operation_id timeout poll_interval (now w) w).
  intros H.
  exact (loop_run_truthy _ _ _ _ _ _ _ _ _
           (wait_loop_run env operation_id timeout poll_interval (now w) fuel w)
           v H).
Qed.

(** X12. All that a wait does to the outside is poll and sleep: every
    event it adds is a request to the poll endpoint for this operation id
    or a sleep of exactly poll_interval (no back-off, no other endpoint,
    no directory made, no file written). *)
Theorem wait_only_polls_and_sleeps (fuel : nat) (operation_id : json)
    (timeout poll_interval : Z) (w : World) :
  exists evs,
    trace (snd (wait_for_completion env fuel operation_id timeout
                  poll_interval w))
      = (trace w ++ evs)%list
    /\ Forall (poll_or_sleep operation_id poll_interval) evs.
Proof.
  change (wait_for_completion env fuel operation_id timeout poll_interval w)
    with (wait_loop env fuel operation_id timeout poll_interval (now w) w).
  exact (loop_run_events _ _ _ _ _ _ _ _ _
           (wait_loop_run env operation_id timeout poll_interval (now w) fuel w)).
Qed.

End PollingOutcome.

Lemma failed_is_terminal_witness :
  fst (wait_loop Fixture.fails 1 Fixture.op123 300 10 0 Fixture.world0)
  = Raised (CaptionsAPIError "Job op123 failed: bad media").
Proof.
  exact (proj1
    (failed_is_terminal Fixture.fails 0 Fixture.op123 300 10 0 Fixture.world0
       Fixture.failed_status eq_refl (answers_ok _) eq_refl)
    (JStr "bad media") eq_refl).
Defined.


Lemma poll_error_is_terminal_witness :
  fst (wait_loop Fixture.unreachable 1 Fixture.op123 300 10 0 Fixture.world0)
  = Raised (CaptionsAPIError "API request failed: Connection refused").
Proof.
  rewrite (proj2
    (poll_error_is_terminal Fixture.unreachable 0 Fixture.op123 300 10 0
       Fixture.world0 eq_refl) "Connection refused" eq_refl).
  reflexivity.
Defined.

Lemma wait_is_bounded_witness :
  fst (wait_for_completion Fixture.pending 40 Fixture.op123 300 10 Fixture.world0)
    <> OutOfFuel
  /\ (requests (snd (wait_for_completion Fixture.pending 40 Fixture.op123
                       300 10 Fixture.world0))
      <= 31)%nat.
Proof.
  apply (wait_is_bounded Fixture.pending 40 Fixture.op123 300 10 Fixture.world0).
  - intros k. apply Qle_refl.
  - intros k. apply Qle_refl.
  - lia.
  - lia.
  - vm_compute. lia.
Defined.

Lemma timeout_sign_witness :
  wait_for_completion Fixture.pending 1 Fixture.op123 (-1) 10 Fixture.world0
  = (Raised (CaptionsAPIError "Job op123 timed out after -1 seconds"),
     Fixture.world0).
Proof.
  apply (proj1 (timeout_sign Fixture.pending 0 Fixture.op123 (-1) 10
                  Fixture.world0)).
  lia.
Defined.

Lemma wait_returns_truthy_witness :
  truthy (JStr "https://x/video.mp4") = true.
Proof.
  exact (wait_returns_truthy Fixture.completes 1 Fixture.op123 300 10
           Fixture.world0 (JStr "https://x/video.mp4") eq_refl).
Defined.

(* ---------------------------------------------------------------------- *)
(** ** Paths                                                               *)
(* ---------------------------------------------------------------------- *)

Section Paths.

Lemma is_sep_char_in (c : ascii) : Py.char_in "/" (String c "") = PosixPath.is_sep c.
Proof.
  cbn [Py.char_in]. unfold PosixPath.is_sep.
  rewrite orb_false_r. apply Ascii.eqb_sym.
Qed.



Lemma head_empty_iff (p : string) :
  PosixPath.head p = "" <-> Py.char_in "/" p = false.
Proof.
  induction p as [|c p IH]; cbn [PosixPath.head Py.char_in]; [tauto|].
  fold (PosixPath.is_sep c).
  replace (Ascii.eqb "/" c) with (PosixPath.is_sep c)
    by (unfold PosixPath.is_sep; apply Ascii.eqb_sym).
  destruct (PosixPath.head p) as [|h hs] eqn:H.
  - destruct (PosixPath.is_sep c); cbn [orb].
    + split; discriminate.
    + split; intros _; [now apply IH | reflexivity].
  - split; [discriminate|].
    intros E. apply orb_false_iff in E as [_ E].
    apply IH in E. discriminate.
Qed.

Lemma rstrip_by_empty_iff (drop : ascii -> bool) (s : string) :
  Py.rstrip_by drop s = "" <-> Py.all drop s = true.
Proof.
  induction s as [|c s IH]; cbn [Py.rstrip_by Py.all]; [tauto|].
  destruct (Py.rstrip_by drop s) as [|r rs] eqn:R.
  - destruct (drop c); cbn [andb].
    + split; intros _; [now apply IH | reflexivity].
    + split; discriminate.
  - split; [discriminate|].
    intros E. apply andb_true_iff in E as [_ E].
    apply IH in E. discriminate.
Qed.

(** os.path.dirname is empty exactly for a path without a slash. *)
Lemma dirname_empty_iff (p : string) :
  PosixPath.dirname p = "" <-> Py.char_in "/" p = false.
Proof.
  rewrite <- head_empty_iff. unfold PosixPath.dirname.
  destruct (String.eqb_spec (PosixPath.head p) "") as [E | N]; cbn [negb andb].
  - tauto.
  - destruct (Py.all PosixPath.is_sep (PosixPath.head p)) eqn:A; cbn [negb].
    + tauto.
    + split; [|contradiction].
      intros R. apply rstrip_by_empty_iff in R. congruence.
Qed.



End Paths.

(* ---------------------------------------------------------------------- *)
(** ** download_video                                                      *)
(* ---------------------------------------------------------------------- *)

Section Download.

Variable env : Env.

Lemma raise_for_status_line (r : Response) (w : World) :
  400 <= status_code r < 600 ->
  raise_for_status r w = (Raised (HTTPError (status_line r) r), w).
Proof.
  intros H. unfold raise_for_status, status_line.
  destruct (Z.ltb_spec (status_code r) 500).
  - replace (400 <=? status_code r) with true
      by (symmetry; apply Z.leb_le; lia).
    reflexivity.
  - replace (500 <=? status_code r) with true
      by (symmetry; apply Z.leb_le; lia).
    replace (status_code r <? 600) with true
      by (symmetry; apply Z.ltb_lt; lia).
    rewrite andb_false_r. reflexivity.
Qed.

(** download_video, case by case on the answer. *)
(** open() raises a ValueError or an OSError, nothing else. *)
Lemma open_wb_error (path : string) (e : exn) :
  open_wb env path = Some e ->
  (exists m, e = ValueError m) \/ (exists m, e = OSError m).
Proof.
  unfold open_wb.
  destruct (Py.char_in Ascii.zero path); [intros [= <-]; eauto|].
  destruct (String.eqb path ""); [intros [= <-]; eauto|].
  destruct (names_directory path); [intros [= <-]; eauto|].
  destruct (open_error env path); cbn; [intros [= <-]; eauto | discriminate].
Qed.

Lemma download_video_cases (video_url : json) (output_path : string) (w : World) :
  download_video env video_url output_path w
  = let w0 := after_log ("Downloading video to: " ++ output_path) w in
    let w1 := after_request env (download_request video_url) w0 in
    match http env (requests w) (download_request video_url) with
    | ConnectionFailed detail =>
        (Raised (CaptionsAPIError ("Failed to download video: " ++ detail)), w1)
    | Responded r =>
        if (400 <=? status_code r) && (status_code r <? 600) then
          (Raised (CaptionsAPIError
                     ("Failed to download video: " ++ status_line r)), w1)
        else if String.eqb (PosixPath.dirname output_path) "" then
          (Raised (OSError "[Errno 2] No such file or directory: ''"), w1)
        else
          match open_wb env output_path with
          | Some e =>
              (Raised e, after_makedirs (PosixPath.dirname output_path) w1)
          | None =>
              (Ok output_path,
               after_log ("Video downloaded successfully: " ++ output_path)
                 (after_write output_path (content r)
                    (after_makedirs (PosixPath.dirname output_path) w1)))
          end
    end.
Proof.
  cbv zeta. unfold download_video, try_except.
  unfold bind at 1. unfold logger_info at 1.
  unfold bind at 1. unfold session_request, download_request.
  cbn [requests after_log].
  destruct (http env (requests w) _) as [detail | r]; [reflexivity|].
  destruct ((400 <=? status_code r) && (status_code r <? 600)) eqn:B.
  - apply andb_true_iff in B as [B1 B2].
    apply Z.leb_le in B1. apply Z.ltb_lt in B2.
    unfold bind at 1. rewrite (raise_for_status_line r _ (conj B1 B2)).
    reflexivity.
  - assert (P : status_code r < 400 \/ 600 <= status_code r).
    { apply andb_false_iff in B. rewrite Z.leb_gt, Z.ltb_ge in B. lia. }
    unfold bind at 1. rewrite (passes_raise_for_status r _ P).
    unfold bind at 1. unfold os_makedirs.
    destruct (String.eqb (PosixPath.dirname output_path) ""); [reflexivity|].
    unfold bind at 1. unfold write_file.
    destruct (open_wb env output_path) as [e|] eqn:O; [|reflexivity].
    destruct (open_wb_error _ _ O) as [[m ->] | [m ->]]; reflexivity.
Qed.


(** X14. When the video url cannot be reached, or answers with a 4xx or
    5xx status (401, 402 and 429 included: they get no message of their
    own here), download_video raises "Failed to download video: " with
    the detail or the status line; the one request apart, nothing
    happened: no directory made, no file written. *)
Theorem download_video_failure (video_url : json) (output_path : string)
    (w : World) :
  let run := download_video env video_url output_path w in
  (forall detail,
      http env (requests w) (download_request video_url)
        = ConnectionFailed detail ->
      fst run = Raised (CaptionsAPIError
                          ("Failed to download video: " ++ detail))
      /\ trace (snd run)
         = (trace w ++ [EvRequest (now w) (download_request video_url)])%list)
  /\ (forall r,
         http env (requests w) (download_request video_url) = Responded r ->
         400 <= status_code r < 600 ->
         fst run = Raised (CaptionsAPIError
                             ("Failed to download video: " ++ status_line r))
         /\ trace (snd run)
            = (trace w ++ [EvRequest (now w) (download_request video_url)])%list).
Proof.
  cbv zeta. rewrite download_video_cases. cbv zeta.
  split.
  - intros detail H. rewrite H. split; reflexivity.
  - intros r H B. rewrite H.
    replace ((400 <=? status_code r) && (status_code r <? 600)) with true
      by (symmetry; apply andb_true_iff; rewrite Z.leb_le, Z.ltb_lt; lia).
    split; reflexivity.
Qed.

(** X15. An output path without a slash has no directory part:
    os.makedirs is called on the empty path and fails, so download_video
    raises an OSError (not a CaptionsAPIError) after the download request
    has been made, and writes nothing. *)
Theorem download_video_bare_filename (video_url : json) (output_path : string)
    (w : World) (r : Response) :
  http env (requests w) (download_request video_url) = Responded r ->
  status_code r < 400 \/ 600 <= status_code r ->
  Py.char_in "/" output_path = false ->
  let run := download_video env video_url output_path w in
  fst run = Raised (OSError "[Errno 2] No such file or directory: ''")
  /\ trace (snd run)
     = (trace w ++ [EvRequest (now w) (download_request video_url)])%list.
Proof.
  intros H P D. cbv zeta. rewrite download_video_cases. cbv zeta. rewrite H.
  replace ((400 <=? status_code r) && (status_code r <? 600)) with false
    by (symmetry; apply andb_false_iff; rewrite Z.leb_gt, Z.ltb_ge; lia).
  apply dirname_empty_iff in D. rewrite D. split; reflexivity.
Qed.

End Download.


(** A path that ends in a slash names a directory: nothing is written. *)
Example download_video_to_directory :
  let run := download_video Fixture.serves_video (JStr "https://x/video.mp4")
               "out/" Fixture.world0 in
  fst run = Raised (OSError "[Errno 21] Is a directory: 'out/'")
  /\ writes (snd run) = [].
Proof. split; reflexivity. Qed.

Lemma download_video_failure_witness :
  fst (download_video (Fixture.always (Responded Fixture.forbidden))
         (JStr "https://x/video.mp4") "out/video.mp4" Fixture.world0)
  = Raised (CaptionsAPIError
              "Failed to download video: 403 Client Error: Forbidden for url: https://x/video.mp4").
Proof.
  refine (proj1 (proj2 (download_video_failure
                          (Fixture.always (Responded Fixture.forbidden))
                          (JStr "https://x/video.mp4") "out/video.mp4"
                          Fixture.world0)
                   Fixture.forbidden eq_refl _)).
  cbn. lia.
Defined.

Lemma download_video_bare_filename_witness :
  fst (download_video Fixture.serves_video (JStr "https://x/video.mp4")
         "video.mp4" Fixture.world0)
  = Raised (OSError "[Errno 2] No such file or directory: ''").
Proof.
  refine (proj1 (download_video_bare_filename Fixture.serves_video
                   (JStr "https://x/video.mp4") "video.mp4" Fixture.world0
                   Fixture.video eq_refl _ eq_refl)).
  left. cbn. lia.
Defined.

(* ---------------------------------------------------------------------- *)
(** ** More on generate_ad_video                                           *)
(* ---------------------------------------------------------------------- *)

Section Workflow.

Variable env : Env.

(** The file name generate_ad_video settles on. *)
Lemma filename_step (script creator_name resolution : string)
    (filename : option string) (w : World) :
  (if falsy_str filename
   then _generate_filename env script creator_name resolution
   else ret match filename with Some f => f | None => "" end) w
  = (Ok (if falsy_str filename
         then filename_of script creator_name resolution
                (strftime (calendar env (now w)))
         else match filename with Some f => f | None => "" end), w).
Proof. destruct (falsy_str filename); reflexivity. Qed.

(** What create_ai_ad does to the world, whatever the answer. *)
Lemma create_ai_ad_world (script creator_name : string)
    (media_urls : option (list string)) (resolution : string)
    (webhook_id : option string) (w : World) :
  let w' := snd (create_ai_ad env script creator_name media_urls resolution
                   webhook_id w) in
  requests w' = S (requests w)
  /\ sleeps w' = sleeps w
  /\ trace w'
     = (trace w ++ [EvRequest (now w)
                      (api_request "/api/ads/submit"
                         (submit_payload script creator_name media_urls
                            resolution webhook_id))])%list.
Proof.
  cbv zeta. split; [|split; [|apply create_ai_ad_trace]].
  all: unfold create_ai_ad, bind, logger_info;
    match goal with
    | |- context [_make_request env ?m ?e ?p ?w1] =>
        pose proof (make_request_world env m e p w1) as HW;
        destruct (_make_request env m e p w1) as [[response | e' |] w2]
    end; cbn [snd] in HW; subst w2; try reflexivity;
    destruct response; try reflexivity;
    cbn [dict_get ret]; destruct (truthy _); reflexivity.
Qed.

(** The start of every run: validation, the output directory, the name. *)
Lemma generate_ad_video_prefix (fuel : nat) (script creator_name : string)
    (media_urls : option (list string)) (resolution : string)
    (webhook_id : option string) (output_dir : string)
    (filename : option string) (w : World) :
  fst (_validate_inputs script creator_name resolution w) = Ok tt ->
  output_dir <> "" ->
  generate_ad_video env fuel script creator_name media_urls resolution
    webhook_id output_dir filename w
  = let name := if falsy_str filename
                then filename_of script creator_name resolution
                       (strftime (calendar env (now w)))
                else match filename with Some f => f | None => "" end in
    let output_path := PosixPath.join output_dir name in
    try_except
      (bind (create_ai_ad env script creator_name media_urls resolution
               webhook_id)
         (fun operation_id =>
            bind (wait_for_completion env fuel operation_id default_timeout
                    default_poll_interval)
              (fun video_url =>
                 bind (download_video env video_url output_path)
                   (fun final_path =>
                      bind (logger_info
                              ("Video generation completed successfully: "
                                 ++ final_path))
                        (fun _ => ret final_path)))))
      (fun e =>
         match e with
         | CaptionsAPIError _ =>
             Some (bind (logger_error ("Video generation failed: " ++ str_exn e))
                     (fun _ => raise e))
         | _ => None
         end)
      (after_makedirs output_dir w).
Proof.
  intros V Hd.
  apply validate_inputs_ok in V. apply String.eqb_neq in Hd.
  unfold generate_ad_video.
  unfold bind at 1. rewrite V.
  unfold bind at 1. unfold os_makedirs. rewrite Hd.
  unfold bind at 1. rewrite filename_step. reflexivity.
Qed.


(** X17. Nothing is touched unless the inputs are valid and the output
    directory can be made: when _validate_inputs raises, generate_ad_video
    raises the same error and leaves the world as it was (no directory, no
    request, no log line); with valid inputs and an empty output_dir it
    raises the OSError of os.makedirs, the world again untouched. *)
Theorem generate_ad_video_fails_fast (fuel : nat) (script creator_name : string)
    (media_urls : option (list string)) (resolution : string)
    (webhook_id : option string) (output_dir : string)
    (filename : option string) (w : World) :
  let run := generate_ad_video env fuel script creator_name media_urls
               resolution webhook_id output_dir filename w in
  (forall e, fst (_validate_inputs script creator_name resolution w) = Raised e ->
             run = (Raised e, w))
  /\ (fst (_validate_inputs script creator_name resolution w) = Ok tt ->
      output_dir = "" ->
      run = (Raised (OSError "[Errno 2] No such file or directory: ''"), w)).
Proof.
  cbv zeta.
  pose proof (validate_inputs_world script creator_name resolution w) as W.
  split.
  - intros e E. unfold generate_ad_video. unfold bind at 1.
    destruct (_validate_inputs script creator_name resolution w) as [rv wv].
    cbn [fst snd] in *. subst rv wv. reflexivity.
  - intros E D. unfold generate_ad_video. unfold bind at 1.
    destruct (_validate_inputs script creator_name resolution w) as [rv wv].
    cbn [fst snd] in *. subst rv wv output_dir. reflexivity.
Qed.

(** X18. An exception of the submission ends the run: it is raised again
    as it is, nothing is polled or downloaded after the submit request,
    and the line "Video generation failed: <message>" is logged exactly
    when it is a CaptionsAPIError. *)
Theorem submit_error_propagates (fuel : nat) (script creator_name : string)
    (media_urls : option (list string)) (resolution : string)
    (webhook_id : option string) (output_dir : string)
    (filename : option string) (w w2 : World) (e : exn) :
  fst (_validate_inputs script creator_name resolution w) = Ok tt ->
  output_dir <> "" ->
  create_ai_ad env script creator_name media_urls resolution webhook_id
    (after_makedirs output_dir w) = (Raised e, w2) ->
  let run := generate_ad_video env fuel script creator_name media_urls
               resolution webhook_id output_dir filename w in
  fst run = Raised e
  /\ trace (snd run) = trace w2
  /\ requests (snd run) = S (requests w)
  /\ log (snd run)
     = match e with
       | CaptionsAPIError msg =>
           (log w2 ++ [("Video generation failed: " ++ msg)%string])%list
       | _ => log w2
       end.
Proof.
  intros V Hd EC. cbv zeta.
  pose proof (create_ai_ad_world script creator_name media_urls resolution
                webhook_id (after_makedirs output_dir w)) as [R2 _].
  rewrite EC in R2. cbn [snd] in R2.
  change (requests (after_makedirs output_dir w)) with (requests w) in R2.
  rewrite (generate_ad_video_prefix _ _ _ _ _ _ _ _ _ V Hd). cbv zeta.
  unfold try_except, bind. rewrite EC.
  destruct e;
    cbn [fst snd trace requests log logger_error logger_info raise after_log
         str_exn];
    repeat split; try reflexivity; exact R2.
Qed.

End Workflow.


(** A caller's file name that names a directory: the three requests are
    made, then open() fails and no file is written. *)
Example generate_ad_video_to_directory :
  let run := generate_ad_video Fixture.succeeding 1 "Buy it today!" "Jane"
               None "fhd" None "./generated_videos" (Some "clips/")
               Fixture.world0 in
  fst run
  = Raised (OSError "[Errno 21] Is a directory: './generated_videos/clips/'")
  /\ requests (snd run) = 3%nat
  /\ writes (snd run) = [].
Proof. repeat split; reflexivity. Qed.

Lemma generate_ad_video_fails_fast_witness :
  generate_ad_video Fixture.succeeding 1 "too short" "Jane" None "fhd" None
    "./generated_videos" None Fixture.world0
  = (Raised (CaptionsAPIError "Script must be at least 10 characters long"),
     Fixture.world0).
Proof.
  apply (proj1 (generate_ad_video_fails_fast Fixture.succeeding 1 "too short"
                  "Jane" None "fhd" None "./generated_videos" None
                  Fixture.world0)).
  reflexivity.
Defined.

Lemma submit_error_propagates_witness :
  fst (generate_ad_video Fixture.unreachable 1 "Buy it today!" "Jane" None
         "fhd" None "./generated_videos" None Fixture.world0)
  = Raised (CaptionsAPIError "API request failed: Connection refused").
Proof.
  refine (proj1 (submit_error_propagates Fixture.unreachable 1 "Buy it today!"
                   "Jane" None "fhd" None "./generated_videos" None
                   Fixture.world0 _ _ eq_refl _ eq_refl)).
  discriminate.
Defined.

(* ---------------------------------------------------------------------- *)
(** ** A run that fails before the download                                *)
(* ---------------------------------------------------------------------- *)

Section Failure.

Variable env : Env.

(** The clock after the submission: one request later. *)
Lemma create_ai_ad_now (script creator_name : string)
    (media_urls : option (list string)) (resolution : string)
    (webhook_id : option string) (w : World) :
  now (snd (create_ai_ad env script creator_name media_urls resolution
              webhook_id w))
  = (now w + latency env (requests w))%Q.
Proof.
  unfold create_ai_ad, bind, logger_info.
  match goal with
  | |- context [_make_request env ?m ?e ?p ?w1] =>
      pose proof (make_request_world env m e p w1) as HW;
      destruct (_make_request env m e p w1) as [[response | e' |] w2]
  end; cbn [snd] in HW; subst w2; try reflexivity.
  destruct response; try reflexivity.
  cbn [dict_get ret].
  destruct (truthy _); reflexivity.
Qed.

(** A poll or a sleep is no step of the download: it is no GET of a video
    url, it makes no directory and it writes no file. *)
Lemma poll_or_sleep_no_download (operation_id : json) (poll_interval : Z)
    (ev : Event) :
  poll_or_sleep operation_id poll_interval ev ->
  is_write ev = false
  /\ (forall path, ev <> EvMakedirs path)
  /\ (forall t video_url, ev <> EvRequest t (download_request video_url)).
Proof.
  destruct ev; cbn; intros H; try contradiction;
    (split; [reflexivity | split; intros; try discriminate]).
  subst. unfold poll_request, api_request, download_request. discriminate.
Qed.

(** C9. Take valid inputs and an output_dir that os.makedirs takes (not
    empty, no NUL character).  When the submission returns a handle and
    the first poll answers FAILED with error "bad media",
    generate_ad_video raises "Job <handle> failed: bad media" having done
    exactly this: made the output directory, sent the submission, sent
    one poll.  And whatever
    makes create_ai_ad or wait_for_completion raise, the exception comes
    out of generate_ad_video as it is and the run ends there: after a
    failed submission no further request is sent, and after a failed wait
    all that followed the submission are the polls and sleeps of the
    wait.  No request for the video and no write is among them; a file is
    written only in a run where both calls returned. *)
Theorem failed_job_writes_nothing (fuel : nat) (script creator_name : string)
    (media_urls : option (list string)) (resolution : string)
    (webhook_id : option string) (output_dir : string)
    (filename : option string) (w : World) :
  fst (_validate_inputs script creator_name resolution w) = Ok tt ->
  output_dir <> "" ->
  Py.char_in Ascii.zero output_dir = false ->
  let submit := api_request "/api/ads/submit"
                  (submit_payload script creator_name media_urls resolution
                     webhook_id) in
  let run := generate_ad_video env (S fuel) script creator_name media_urls
               resolution webhook_id output_dir filename w in
  (forall (fsub fpoll : list (string * json)) (operation_id : json),
      answers (http env (requests w) submit) (JObj fsub) ->
      lookup "operationId" fsub = Some operation_id ->
      truthy operation_id = true ->
      answers (http env (S (requests w)) (poll_request operation_id))
              (JObj fpoll) ->
      lookup "state" fpoll = Some (JStr "FAILED") ->
      lookup "error" fpoll = Some (JStr "bad media") ->
      fst run = Raised (CaptionsAPIError
                          ("Job " ++ py_str operation_id ++ " failed: bad media"))
      /\ trace (snd run)
         = (trace w
              ++ [EvMakedirs output_dir;
                  EvRequest (now w) submit;
                  EvRequest (now w + latency env (requests w))%Q
                    (poll_request operation_id)])%list
      /\ requests (snd run) = S (S (requests w))
      /\ writes (snd run) = writes w)
  /\ (forall (e : exn) (w2 : World),
        create_ai_ad env script creator_name media_urls resolution webhook_id
          (after_makedirs output_dir w)
          = (Raised e, w2) ->
        fst run = Raised e
        /\ trace (snd run)
           = (trace w ++ [EvMakedirs output_dir; EvRequest (now w) submit])%list
        /\ requests (snd run) = S (requests w))
  /\ (forall (operation_id : json) (w2 : World) (e : exn) (w3 : World),
        create_ai_ad env script creator_name media_urls resolution webhook_id
          (after_makedirs output_dir w)
          = (Ok operation_id, w2) ->
        wait_for_completion env (S fuel) operation_id default_timeout
          default_poll_interval w2
          = (Raised e, w3) ->
        fst run = Raised e
        /\ requests (snd run) = requests w3
        /\ exists evs,
             trace (snd run)
             = (trace w ++ EvMakedirs output_dir :: EvRequest (now w) submit
                  :: evs)%list
             /\ Forall (poll_or_sleep operation_id default_poll_interval) evs
             /\ Forall (fun ev =>
                          is_write ev = false
                          /\ (forall path, ev <> EvMakedirs path)
                          /\ (forall t video_url,
                                ev <> EvRequest t (download_request video_url)))
                       evs)
  /\ (writes (snd run) <> writes w ->
      exists operation_id w2 video_url w3,
        create_ai_ad env script creator_name media_urls resolution webhook_id
          (after_makedirs output_dir w)
          = (Ok operation_id, w2)
        /\ wait_for_completion env (S fuel) operation_id default_timeout
             default_poll_interval w2
           = (Ok video_url, w3)).
Proof.
  intros V Hd _. cbv zeta.
  set (w1 := after_makedirs output_dir w).
  pose proof (create_ai_ad_world env script creator_name media_urls resolution
                webhook_id w1) as [R2 [_ T2]].
  pose proof (create_ai_ad_now script creator_name media_urls resolution
                webhook_id w1) as N2.
  change (requests w1) with (requests w) in R2, N2.
  change (now w1) with (now w) in T2, N2.
  change (trace w1) with (trace w ++ [EvMakedirs output_dir])%list in T2.
  rewrite <- app_assoc in T2. cbn [app] in T2.
  assert (Failed_wait :
    forall (operation_id : json) (w2 : World) (e : exn) (w3 : World),
      create_ai_ad env script creator_name media_urls resolution webhook_id w1
        = (Ok operation_id, w2) ->
      wait_for_completion env (S fuel) operation_id default_timeout
        default_poll_interval w2
        = (Raised e, w3) ->
      fst (generate_ad_video env (S fuel) script creator_name media_urls
             resolution webhook_id output_dir filename w) = Raised e
      /\ requests (snd (generate_ad_video env (S fuel) script creator_name
                          media_urls resolution webhook_id output_dir
                          filename w)) = requests w3
      /\ trace (snd (generate_ad_video env (S fuel) script creator_name
                       media_urls resolution webhook_id output_dir
                       filename w)) = trace w3).
  { intros operation_id w2 e w3 EC EW.
    assert (E : generate_ad_video env (S fuel) script creator_name media_urls
                  resolution webhook_id output_dir filename w
                = (Raised e,
                   match e with
                   | CaptionsAPIError msg =>
                       after_log ("Video generation failed: " ++ msg) w3
                   | _ => w3
                   end)).
    { rewrite (generate_ad_video_prefix _ _ _ _ _ _ _ _ _ _ V Hd). cbv zeta.
      fold w1. unfold try_except. unfold bind at 1. rewrite EC.
      unfold bind at 1. rewrite EW.
      destruct e; reflexivity. }
    rewrite E. destruct e; repeat split; reflexivity. }
  split; [|split; [|split]].
  - intros fsub fpoll operation_id Hs Hop Ht Hp Hst Her.
    pose proof (create_ai_ad_on_answer env script creator_name media_urls
                  resolution webhook_id w1 (JObj fsub) Hs) as EC.
    unfold field in EC. rewrite Hop, Ht in EC.
    set (w2 := snd (create_ai_ad env script creator_name media_urls resolution
                      webhook_id w1)) in *.
    assert (EC' : create_ai_ad env script creator_name media_urls resolution
                    webhook_id w1 = (Ok operation_id, w2)).
    { rewrite (surjective_pairing (create_ai_ad _ _ _ _ _ _ _)).
      now rewrite EC. }
    clearbody w2.
    set (w3 := after_log ("Job " ++ py_str operation_id ++ " status: "
                            ++ py_str (JStr "FAILED"))
                 (after_request env (poll_request operation_id) w2)).
    assert (EW : wait_for_completion env (S fuel) operation_id default_timeout
                   default_poll_interval w2
                 = (Raised (CaptionsAPIError
                              ("Job " ++ py_str operation_id
                                 ++ " failed: bad media")), w3)).
    { unfold wait_for_completion. unfold bind at 1. unfold time_time at 1.
      erewrite wait_loop_step.
      2:{ apply budget_exceeded_false. unfold default_timeout.
          change (inject_Z 300) with 300%Q. lra. }
      2:{ rewrite R2. exact Hp. }
      cbv zeta. unfold state_of. rewrite Hst, Her.
      cbn [eq_str String.eqb Ascii.eqb Bool.eqb py_str]. reflexivity. }
    destruct (Failed_wait operation_id w2 _ w3 EC' EW) as [F [R T]].
    rewrite F, R. unfold writes. rewrite T.
    unfold w3. cbn [trace requests after_log after_request].
    rewrite T2, R2, N2. rewrite <- app_assoc. cbn [app].
    repeat split; try reflexivity.
    rewrite !List.filter_app. cbn [List.filter is_write].
    now rewrite app_nil_r.
  - intros e w2 EC.
    rewrite EC in R2, T2. cbn [snd] in R2, T2.
    rewrite (generate_ad_video_prefix _ _ _ _ _ _ _ _ _ _ V Hd). cbv zeta.
    fold w1. unfold try_except, bind. rewrite EC.
    destruct e;
      cbn [fst snd trace requests log logger_error logger_info raise after_log
           str_exn];
      repeat split; try reflexivity; assumption.
  - intros operation_id w2 e w3 EC EW.
    destruct (Failed_wait operation_id w2 e w3 EC EW) as [F [R T]].
    rewrite F, R, T. split; [reflexivity | split; [reflexivity|]].
    rewrite EC in T2. cbn [snd] in T2.
    pose proof (wait_loop_run env operation_id default_timeout
                  default_poll_interval (now w2) (S fuel) w2) as L.
    change (wait_loop env (S fuel) operation_id default_timeout
              default_poll_interval (now w2) w2)
      with (wait_for_completion env (S fuel) operation_id default_timeout
              default_poll_interval w2) in L.
    rewrite EW in L. cbn [fst snd] in L.
    destruct (loop_run_events _ _ _ _ _ _ _ _ _ L) as [evs [E P]].
    exists evs. split; [|split; [exact P|]].
    + rewrite E, T2. rewrite <- app_assoc. reflexivity.
    + eapply Forall_impl; [|exact P].
      intros ev. apply poll_or_sleep_no_download.
  - apply write_needs_success.
Qed.

End Failure.

Lemma failed_job_writes_nothing_witness :
  let run := generate_ad_video Fixture.failing 1 "Buy it today!" "Jane" None
               "fhd" None "./generated_videos" None Fixture.world0 in
  fst run = Raised (CaptionsAPIError "Job op123 failed: bad media")
  /\ requests (snd run) = 2%nat
  /\ writes (snd run) = [].
Proof.
  cbv zeta.
  assert (D : "./generated_videos" <> "") by discriminate.
  destruct (failed_job_writes_nothing Fixture.failing 0 "Buy it today!" "Jane"
              None "fhd" None "./generated_videos" None Fixture.world0
              eq_refl D eq_refl)
    as [A _].
  destruct (A [("operationId", Fixture.op123)] Fixture.failed_status
              Fixture.op123 (answers_ok _) eq_refl eq_refl (answers_ok _)
              eq_refl eq_refl)
    as [F [_ [R W]]].
  split; [exact F | split; [exact R | exact W]].
Defined.

(* ---------------------------------------------------------------------- *)
(** ** The shape of a generated file name                                  *)
(* ---------------------------------------------------------------------- *)

Section FilenameShape.

Lemma filter_all_id (p : ascii -> bool) (s : string) :
  Py.all p s = true -> Py.filter p s = s.
Proof.
  induction s as [|c s IH]; cbn [Py.all Py.filter]; [reflexivity|].
  intros H. apply andb_true_iff in H as [Hc Hs].
  now rewrite Hc, IH.
Qed.

Lemma uint_digits_kept (u : Decimal.uint) :
  Py.all keep_char (NilEmpty.string_of_uint u) = true.
Proof.
  induction u; cbn [NilEmpty.string_of_uint Py.all]; auto.
Qed.

Lemma str_of_N_kept (n : N) : Py.all keep_char (Py.str_of_N n) = true.
Proof.
  unfold Py.str_of_N, NilZero.string_of_uint.
  destruct (N.to_uint n) eqn:E; try reflexivity; rewrite <- E;
    apply uint_digits_kept.
Qed.

Lemma pad2_kept (n : N) : Py.all keep_char (Py.pad2 n) = true.
Proof.
  unfold Py.pad2. destruct (n <? 10)%N.
  - rewrite all_app, str_of_N_kept. reflexivity.
  - apply str_of_N_kept.
Qed.

Lemma strftime_kept (d : DateTime) : Py.all keep_char (strftime d) = true.
Proof.
  unfold strftime. repeat rewrite all_app.
  now rewrite str_of_N_kept, !pad2_kept.
Qed.

(** X19. A generated file name is "ai_ad_", the creator name without the
    characters that are neither alphanumeric nor one of "._-", "_", the
    resolution cleaned the same way, "_", the timestamp and ".mp4": the
    cleaning drops characters (a space is not replaced by anything) and
    leaves the fixed parts and the timestamp as they are. *)
Theorem generated_filename_shape (env : Env)
    (script creator_name resolution : string) (w : World) :
  fst (_generate_filename env script creator_name resolution w)
  = Ok ("ai_ad_" ++ Py.filter keep_char creator_name ++ "_"
          ++ Py.filter keep_char resolution ++ "_"
          ++ strftime (calendar env (now w)) ++ ".mp4").
Proof.
  unfold _generate_filename, bind, datetime_now, ret. cbn [fst].
  unfold filename_of. f_equal.
  rewrite !filter_app.
  rewrite (filter_all_id keep_char (strftime _)) by apply strftime_kept.
  reflexivity.
Qed.

End FilenameShape.

(* ---------------------------------------------------------------------- *)
(** ** Construction of the client                                          *)
(* ---------------------------------------------------------------------- *)

Section Construction.

Variable getenv : string -> option string.
Variable default_headers : list (string * string).

Lemma same_key_refl (k : string) : Headers.same_key k k = true.
Proof. apply String.eqb_refl. Qed.

Lemma same_key_trans_false (a b c : string) :
  Headers.same_key a b = true -> Headers.same_key b c = false ->
  Headers.same_key a c = false.
Proof.
  unfold Headers.same_key. intros H1 H2.
  apply String.eqb_eq in H1. congruence.
Qed.

Lemma get_set_same (k v : string) (h : list (string * string)) :
  Headers.get k (Headers.set k v h) = Some v.
Proof.
  induction h as [|[k' v'] h IH]; cbn [Headers.set Headers.get].
  - now rewrite same_key_refl.
  - destruct (Headers.same_key k' k) eqn:E; cbn [Headers.get].
    + now rewrite same_key_refl.
    + now rewrite E.
Qed.

Lemma get_set_other (k k0 v : string) (h : list (string * string)) :
  Headers.same_key k0 k = false ->
  Headers.get k (Headers.set k0 v h) = Headers.get k h.
Proof.
  intros N.
  induction h as [|[k' v'] h IH]; cbn [Headers.set Headers.get].
  - now rewrite N.
  - destruct (Headers.same_key k' k0) eqn:E; cbn [Headers.get].
    + rewrite N. now rewrite (same_key_trans_false k' k0 k E N).
    + now rewrite IH.
Qed.

Lemma get_same_key (k1 k2 : string) (h : list (string * string)) :
  Headers.same_key k1 k2 = true -> Headers.get k1 h = Headers.get k2 h.
Proof.
  unfold Headers.same_key. intros E. apply String.eqb_eq in E.
  induction h as [|[k' v'] h IH]; cbn [Headers.get]; [reflexivity|].
  unfold Headers.same_key. now rewrite E, IH.
Qed.

(** X20. The key passed to the constructor wins over the environment when
    it is not empty; otherwise CAPTIONS_API_KEY is used; construction
    fails with "API key is required. ..." exactly when both are missing or
    empty, so a client never holds an empty key. *)
Theorem init_resolves_api_key (key : option string) :
  let made := CaptionsAPIClient_init getenv default_headers key in
  (forall k, key = Some k -> k <> "" ->
     exists c, made = inr c /\ api_key c = k)
  /\ (forall k, falsy_str key = true ->
        getenv "CAPTIONS_API_KEY" = Some k -> k <> "" ->
        exists c, made = inr c /\ api_key c = k)
  /\ (falsy_str key = true ->
      falsy_str (getenv "CAPTIONS_API_KEY") = true ->
      made = inl (CaptionsAPIError
                    "API key is required. Set CAPTIONS_API_KEY environment variable or pass api_key parameter."))
  /\ (forall c, made = inr c -> api_key c <> "").
Proof.
  cbv zeta. unfold CaptionsAPIClient_init, or_str.
  split; [|split; [|split]].
  - intros k -> Hk. cbn [falsy_str].
    apply String.eqb_neq in Hk. rewrite Hk. cbn [falsy_str]. rewrite Hk.
    eexists. split; reflexivity.
  - intros k F G Hk. rewrite F, G. cbn [falsy_str].
    apply String.eqb_neq in Hk. rewrite Hk.
    eexists. split; reflexivity.
  - intros F G. rewrite F, G. reflexivity.
  - intros c.
    destruct (falsy_str (if falsy_str key then _ else key)) eqn:F;
      [discriminate|].
    intros E. injection E as <-. cbn [api_key].
    destruct (if falsy_str key then _ else key) as [k|]; [|discriminate].
    cbn [falsy_str] in F. now apply String.eqb_neq.
Qed.

(** X21. A constructed client sends the resolved key in the "x-api-key"
    header (whatever the case the header is asked in), with
    Content-Type application/json and its own User-Agent in place of the
    session's; it sets no Authorization header. *)
Theorem init_sets_headers (key : option string) (c : Client) :
  CaptionsAPIClient_init getenv default_headers key = inr c ->
  Headers.get "x-api-key" (session_headers c) = Some (api_key c)
  /\ Headers.get "X-API-Key" (session_headers c) = Some (api_key c)
  /\ Headers.get "Content-Type" (session_headers c) = Some "application/json"
  /\ Headers.get "User-Agent" (session_headers c)
     = Some "CaptionsAI-Python-Client/1.0"
  /\ Headers.get "Authorization" (session_headers c)
     = Headers.get "Authorization" default_headers.
Proof.
  unfold CaptionsAPIClient_init.
  destruct (falsy_str (or_str key (getenv "CAPTIONS_API_KEY"))); [discriminate|].
  intros E. injection E as <-. cbn [session_headers api_key].
  unfold Headers.update. cbn [fold_left fst snd].
  split; [|split; [|split; [|split]]].
  - rewrite !get_set_other by reflexivity. apply get_set_same.
  - rewrite (get_same_key "X-API-Key" "x-api-key") by reflexivity.
    rewrite !get_set_other by reflexivity. apply get_set_same.
  - rewrite get_set_other by reflexivity. apply get_set_same.
  - apply get_set_same.
  - now rewrite !get_set_other by reflexivity.
Qed.

End Construction.

Lemma init_resolves_api_key_witness :
  exists c,
    CaptionsAPIClient_init Fixture.env_with_key Fixture.session_defaults
      (Some "explicit") = inr c
    /\ api_key c = "explicit".
Proof.
  apply (proj1 (init_resolves_api_key Fixture.env_with_key
                  Fixture.session_defaults (Some "explicit"))
           "explicit" eq_refl).
  discriminate.
Defined.

Lemma init_sets_headers_witness :
  Headers.get "x-api-key"
    (Headers.update Fixture.session_defaults
       [("x-api-key", "from-env"); ("Content-Type", "application/json");
        ("User-Agent", "CaptionsAI-Python-Client/1.0")])
  = Some "from-env".
Proof.
  exact (proj1 (init_sets_headers Fixture.env_with_key Fixture.session_defaults
                  None _ eq_refl)).
Defined.

(* ---------------------------------------------------------------------- *)
(** ** utils.py: sanitize_filename                                         *)
(* ---------------------------------------------------------------------- *)

Section Sanitize.

Variable drop : ascii -> bool.

Lemma lstrip_by_starts_clean (s : string) :
  starts_clean drop (Utils.lstrip_by drop s).
Proof.
  induction s as [|c s IH]; cbn [Utils.lstrip_by]; [exact I|].
  destruct (drop c) eqn:E; [exact IH | exact E].
Qed.

Lemma lstrip_by_clean (s : string) :
  starts_clean drop s -> Utils.lstrip_by drop s = s.
Proof.
  destruct s as [|c s]; cbn [starts_clean Utils.lstrip_by]; [reflexivity|].
  now intros ->.
Qed.

Lemma rstrip_by_starts_clean (s : string) :
  starts_clean drop s -> starts_clean drop (Py.rstrip_by drop s).
Proof.
  destruct s as [|c s]; cbn [starts_clean Py.rstrip_by]; [trivial|].
  intros E. destruct (Py.rstrip_by drop s); [rewrite E|]; exact E.
Qed.

Lemma rstrip_by_idempotent (s : string) :
  Py.rstrip_by drop (Py.rstrip_by drop s) = Py.rstrip_by drop s.
Proof.
  induction s as [|c s IH]; cbn [Py.rstrip_by]; [reflexivity|].
  destruct (Py.rstrip_by drop s) as [|r rs] eqn:R.
  - destruct (drop c) eqn:E; cbn [Py.rstrip_by]; [reflexivity|].
    now rewrite E.
  - cbn [Py.rstrip_by]. cbn [Py.rstrip_by] in IH. rewrite IH. reflexivity.
Qed.

Lemma strip_by_idempotent (s : string) :
  Utils.strip_by drop (Utils.strip_by drop s) = Utils.strip_by drop s.
Proof.
  unfold Utils.strip_by.
  rewrite (lstrip_by_clean (Py.rstrip_by drop (Utils.lstrip_by drop s)))
    by (apply rstrip_by_starts_clean, lstrip_by_starts_clean).
  apply rstrip_by_idempotent.
Qed.

Lemma lstrip_by_all (p : ascii -> bool) (s : string) :
  Py.all p s = true -> Py.all p (Utils.lstrip_by drop s) = true.
Proof.
  induction s as [|c s IH]; cbn [Utils.lstrip_by]; [trivial|].
  intros H. destruct (drop c); [|exact H].
  cbn [Py.all] in H. apply andb_true_iff in H as [_ H]. auto.
Qed.

Lemma rstrip_by_all (p : ascii -> bool) (s : string) :
  Py.all p s = true -> Py.all p (Py.rstrip_by drop s) = true.
Proof.
  induction s as [|c s IH]; cbn [Py.rstrip_by]; [trivial|].
  intros H. cbn [Py.all] in H. apply andb_true_iff in H as [Hc Hs].
  specialize (IH Hs).
  destruct (Py.rstrip_by drop s) as [|r rs].
  - destruct (drop c); cbn [Py.all]; [reflexivity | now rewrite Hc].
  - cbn [Py.all] in *. now rewrite Hc, IH.
Qed.

End Sanitize.

Section SanitizeFilename.

Lemma re_sub_valid (s : string) :
  Py.all valid_char (Utils.re_sub_class Utils.invalid_char "_" s) = true.
Proof.
  induction s as [|c s IH]; cbn [Utils.re_sub_class Py.all]; [reflexivity|].
  rewrite IH, andb_true_r. unfold valid_char.
  destruct (Utils.invalid_char c) eqn:E; [reflexivity | now rewrite E].
Qed.

Lemma re_sub_on_valid (s : string) :
  Py.all valid_char s = true ->
  Utils.re_sub_class Utils.invalid_char "_" s = s.
Proof.
  induction s as [|c s IH]; cbn [Utils.re_sub_class Py.all]; [reflexivity|].
  intros H. apply andb_true_iff in H as [Hc Hs].
  unfold valid_char in Hc. apply negb_true_iff in Hc.
  now rewrite Hc, IH.
Qed.

Lemma sanitize_filename_facts (filename : string) :
  Utils.sanitize_filename filename <> ""
  /\ Py.all valid_char (Utils.sanitize_filename filename) = true
  /\ Utils.strip_by Utils.space_or_dot (Utils.sanitize_filename filename)
     = Utils.sanitize_filename filename.
Proof.
  unfold Utils.sanitize_filename.
  destruct (String.eqb_spec
              (Utils.strip_by Utils.space_or_dot
                 (Utils.re_sub_class Utils.invalid_char "_" filename)) "")
    as [E | N].
  - split; [discriminate|]. split; reflexivity.
  - split; [exact N|]. split.
    + unfold Utils.strip_by.
      apply rstrip_by_all, lstrip_by_all, re_sub_valid.
    + apply strip_by_idempotent.
Qed.

(** X22. A sanitized file name is never empty ("unnamed_file" stands in),
    holds none of the characters less-than, greater-than, colon, double
    quote, slash, backslash, bar, question mark and star, and neither
    begins nor ends with a space or a dot. *)
Theorem sanitize_filename_safe (filename : string) :
  let clean := Utils.sanitize_filename filename in
  clean <> ""
  /\ Py.all valid_char clean = true
  /\ Py.char_in "/" clean = false
  /\ Utils.strip_by Utils.space_or_dot clean = clean.
Proof.
  cbv zeta.
  destruct (sanitize_filename_facts filename) as [N [V S]].
  split; [exact N|]. split; [exact V|]. split; [|exact S].
  revert V. generalize (Utils.sanitize_filename filename). intros s.
  induction s as [|c s IH]; cbn [Py.all Py.char_in]; [reflexivity|].
  intros H. apply andb_true_iff in H as [Hc Hs].
  rewrite (IH Hs), orb_false_r.
  destruct (Ascii.eqb_spec "/"%char c) as [<- | _]; [discriminate | reflexivity].
Qed.

(** X23. Sanitizing twice is sanitizing once. *)
Theorem sanitize_filename_idempotent (filename : string) :
  Utils.sanitize_filename (Utils.sanitize_filename filename)
  = Utils.sanitize_filename filename.
Proof.
  destruct (sanitize_filename_facts filename) as [N [V S]].
  unfold Utils.sanitize_filename at 1.
  rewrite (re_sub_on_valid _ V), S.
  destruct (String.eqb_spec (Utils.sanitize_filename filename) "");
    [contradiction | reflexivity].
Qed.

End SanitizeFilename.

Example sanitize_samples :
  Utils.sanitize_filename " my:video?.mp4. " = "my_video_.mp4"
  /\ Utils.sanitize_filename " .. " = "unnamed_file"
  /\ Utils.sanitize_filename "a/b\c" = "a_b_c".
Proof. repeat split; reflexivity. Qed.

(* ---------------------------------------------------------------------- *)
(** ** Answers that are not a dict, and the order of the validation errors *)
(* ---------------------------------------------------------------------- *)

Section Malformed.

Variable env : Env.

(** X4. The client calls .get on whatever the body decodes to: when the
    server answers a submission or a poll with JSON that is not an object
    (a list, a string, a number, null), create_ai_ad and the polling loop
    raise AttributeError, not CaptionsAPIError; the loop does so after its
    one request, without sleeping. *)
Theorem non_dict_answer_raises_attribute_error (body : json) :
  (forall fields, body <> JObj fields) ->
  (forall (script creator_name : string) (media_urls : option (list string))
          (resolution : string) (webhook_id : option string) (w : World),
      answers (http env (requests w)
                 (api_request "/api/ads/submit"
                    (submit_payload script creator_name media_urls resolution
                       webhook_id)))
              body ->
      fst (create_ai_ad env script creator_name media_urls resolution
             webhook_id w)
      = Raised (AttributeError
                  ("'" ++ type_name body ++ "' object has no attribute 'get'")))
  /\ (forall (fuel : nat) (operation_id : json) (timeout poll_interval : Z)
             (start_time : Q) (w : World),
         budget_exceeded start_time (now w) timeout = false ->
         answers (http env (requests w) (poll_request operation_id)) body ->
         wait_loop env (S fuel) operation_id timeout poll_interval start_time w
         = (Raised (AttributeError
                      ("'" ++ type_name body
                         ++ "' object has no attribute 'get'")),
            polled env operation_id w)).
Proof.
  intros N. split.
  - intros script creator_name media_urls resolution webhook_id w Ha.
    rewrite (create_ai_ad_on_answer env _ _ _ _ _ _ _ Ha).
    destruct body; try reflexivity. now destruct (N fields).
  - intros fuel operation_id timeout poll_interval start_time w Hb Ha.
    cbn [wait_loop]. unfold bind at 1. unfold time_time at 1. rewrite Hb.
    unfold bind at 1. rewrite (get_job_status_answers _ _ _ _ Ha).
    destruct body; try reflexivity. now destruct (N fields).
Qed.

End Malformed.

Lemma non_dict_answer_raises_attribute_error_witness :
  fst (create_ai_ad
         (Fixture.always (Responded (Fixture.ok_response (JArr []))))
         "Buy it today!" "Jane" None "fhd" None Fixture.world0)
  = Raised (AttributeError "'list' object has no attribute 'get'").
Proof.
  refine (proj1 (non_dict_answer_raises_attribute_error
                   (Fixture.always (Responded (Fixture.ok_response (JArr []))))
                   (JArr []) _)
            "Buy it today!" "Jane" None "fhd" None Fixture.world0
            (answers_ok _)).
  intros fields. discriminate.
Defined.

(** X24. The checks of _validate_inputs come in a fixed order and the
    first that fails names the error: a script shorter than 10 characters
    once stripped (an all-blank one included) gives "Script must be at
    least 10 characters long" whatever the other arguments; else a blank
    creator name gives "Creator name is required"; else a resolution
    outside the three gives "Invalid resolution. Must be one of: fhd, hd,
    4k". *)
Theorem validate_inputs_first_error (script creator_name resolution : string)
    (w : World) :
  let r := fst (_validate_inputs script creator_name resolution w) in
  (Py.len (Py.strip script) < 10 ->
   r = Raised (CaptionsAPIError "Script must be at least 10 characters long"))
  /\ (10 <= Py.len (Py.strip script) ->
      Py.strip creator_name = "" ->
      r = Raised (CaptionsAPIError "Creator name is required"))
  /\ (10 <= Py.len (Py.strip script) ->
      Py.strip creator_name <> "" ->
      ~ In (Py.lower resolution) valid_resolutions ->
      r = Raised (CaptionsAPIError
                    "Invalid resolution. Must be one of: fhd, hd, 4k")).
Proof.
  cbv zeta. rewrite validate_inputs_cases.
  split; [|split].
  - intros H. apply Z.ltb_lt in H. now rewrite H.
  - intros H E. apply Z.ltb_ge in H. rewrite H.
    apply len_lt_1 in E. now rewrite E.
  - intros H E N. apply Z.ltb_ge in H. rewrite H.
    destruct (Py.len (Py.strip creator_name) <? 1) eqn:L.
    { apply len_lt_1 in L. contradiction. }
    destruct (Py.str_in (Py.lower resolution) valid_resolutions) eqn:S.
    { apply str_in_In in S. contradiction. }
    reflexivity.
Qed.

Lemma validate_inputs_first_error_witness :
  fst (_validate_inputs "          " "" "8k" Fixture.world0)
  = Raised (CaptionsAPIError "Script must be at least 10 characters long").
Proof.
  apply (proj1 (validate_inputs_first_error "          " "" "8k" Fixture.world0)).
  cbn. lia.
Defined.

Lemma make_request_returns_iff_witness :
  fst (_make_request Fixture.completes "POST" "/api/ads/poll" None Fixture.world0)
  = Ok (JObj Fixture.complete_status).
Proof.
  apply (proj2 (make_request_returns_iff Fixture.completes "POST"
                  "/api/ads/poll" None Fixture.world0
                  (JObj Fixture.complete_status))).
  apply answers_ok.
Defined.
